(** * The Bobbie water heater adapter of the Melissa integration

    A shallow embedding of
    [homeassistant/components/melissa/water_heater.py]: the setup function
    [async_setup_platform] and the entity class [BobbieWaterHeater]. *)

From Stdlib Require Import ZArith QArith String List.
From stdpp Require Import base option gmap strings list fin_maps.

Set Warnings "-register-all".
Local Open Scope string_scope.
Local Open Scope list_scope.
Local Open Scope Z_scope.

(** ** Python values *)

(** The payloads that travel between the vendor client and the adapter are
    decoded JSON: [None], booleans, numbers, strings, lists and dictionaries
    with string keys. *)
Inductive pyval : Type :=
| PNone
| PBool (b : bool)
| PInt (n : Z)
| PFloat (q : Q)
| PStr (s : string)
| PList (l : list pyval)
| PDict (d : gmap string pyval).

(** The exceptions the adapter can meet.  [ApiError] stands for any exception
    of the vendor client or the framework that is not one of the built-in
    lookup errors (a network or an authentication failure, say). *)
Inductive exn : Type :=
| KeyError
| IndexError
| TypeError
| AttributeError
| ApiError (what : string).

Inductive result (A : Type) : Type :=
| Ok (a : A)
| Raise (e : exn).
Arguments Ok {A} a.
Arguments Raise {A} e.

(** [except KeyError]: the handler's class test. *)
Definition is_KeyError (e : exn) : bool :=
  match e with KeyError => true | _ => false end.

(** [v is None], [v is False], [v is True]: identity with a singleton. *)
Definition is_None (v : pyval) : bool :=
  match v with PNone => true | _ => false end.
Definition is_False (v : pyval) : bool :=
  match v with PBool false => true | _ => false end.
Definition is_True (v : pyval) : bool :=
  match v with PBool true => true | _ => false end.

(** [v == s] for a string literal [s]: only an equal string compares equal. *)
Definition eq_str (v : pyval) (s : string) : bool :=
  match v with PStr t => String.eqb t s | _ => false end.

(** [seq[i]] on a sequence of length [len]: a negative index counts from the
    end; out of range is an [IndexError]. *)
Definition seq_index {A : Type} (l : list A) (i : Z) : result A :=
  let len := Z.of_nat (length l) in
  let j := if i <? 0 then i + len else i in
  if (0 <=? j) && (j <? len) then
    match l !! Z.to_nat j with
    | Some x => Ok x
    | None => Raise IndexError
    end
  else Raise IndexError.

Definition str_chars (s : string) : list pyval :=
  map (fun c => PStr (String c EmptyString)) (list_ascii_of_string s).

(** [v[k]].  Dictionaries have string keys, so any other hashable key is
    absent; lists and dictionaries are unhashable.  Lists and strings take
    integer indices ([bool] is a subclass of [int]); nothing else is
    subscriptable. *)
Definition subscript (v k : pyval) : result pyval :=
  match v with
  | PDict d =>
      match k with
      | PStr s => match d !! s with Some x => Ok x | None => Raise KeyError end
      | PList _ | PDict _ => Raise TypeError
      | _ => Raise KeyError
      end
  | PList l =>
      match k with
      | PInt i => seq_index l i
      | PBool b => seq_index l (if b then 1 else 0)
      | _ => Raise TypeError
      end
  | PStr s =>
      match k with
      | PInt i => seq_index (str_chars s) i
      | PBool b => seq_index (str_chars s) (if b then 1 else 0)
      | _ => Raise TypeError
      end
  | _ => Raise TypeError
  end.

(** [v.get(key, default)]: only dictionaries have the method. *)
Definition get_method (v : pyval) (key : string) (dflt : pyval)
    : result pyval :=
  match v with
  | PDict d => Ok (default dflt (d !! key))
  | _ => Raise AttributeError
  end.

(** ** Computations with state and exceptions

    A computation runs on a state [S] and ends with a value or an exception;
    the state reached is kept in both cases, as assignments made before a
    [raise] stay made. *)
Definition M (S A : Type) : Type := S -> result A * S.

#[export] Instance M_ret {S} : MRet (M S) := fun A a s => (Ok a, s).
#[export] Instance M_bind {S} : MBind (M S) := fun A B k m s =>
  match m s with
  | (Ok a, s') => k a s'
  | (Raise e, s') => (Raise e, s')
  end.

Definition lift {S A} (r : result A) : M S A := fun s => (r, s).
Definition gets {S A} (f : S -> A) : M S A := fun s => (Ok (f s), s).
Definition modify {S} (f : S -> S) : M S unit := fun s => (Ok tt, f s).

(** [try: body except <class>: handler] *)
Definition try_except {S A} (body : M S A) (caught : exn -> bool)
    (handler : M S A) : M S A := fun s =>
  match body s with
  | (Raise e, s') => if caught e then handler s' else (Raise e, s')
  | r => r
  end.

(** A computation on one component of a pair of states. *)
Definition on_fst {S T A} (m : M S A) : M (S * T) A := fun st =>
  let '(r, s') := m (fst st) in (r, (s', snd st)).
Definition on_snd {S T A} (m : M T A) : M (S * T) A := fun st =>
  let '(r, t') := m (snd st) in (r, (fst st, t')).

(** ** Module constants *)

Definition SUPPORT_FLAGS : Z := 0.
Definition ATTR_HOT := "hot".
Definition ATTR_COLD := "cold".
Definition ATTR_HOME := "home".
Definition ATTR_ENERGY := "energy".
Definition ATTR_VOLTAGE := "voltage".
Definition ATTR_CURRENT := "current".
Definition ATTR_RELAY := "relay_state".
Definition ATTR_LOAD := "load".
Definition ATTR_SETPOINT := "energy_fix_setpoint".

(** ** What the adapter imports

    The state names and the unit come from [homeassistant.const] and
    [homeassistant.components.water_heater]; [show_temp] is
    [homeassistant.helpers.temperature.display_temp] at the entity's [hass]
    and [precision], taking the temperature and the unit.  None of them is
    defined in the module at hand, so the adapter is parametrised by them. *)
Class Framework : Type := {
  STATE_ECO : string;
  STATE_ELECTRIC : string;
  STATE_OFF : string;
  STATE_UNKNOWN : string;
  TEMP_CELSIUS : string;
  show_temp : pyval -> string -> result pyval
}.

(** The vendor client ([hass.data[DATA_MELISSA]]).  [W] is whatever the
    client and the cloud behind it remember; each call may change it and
    returns a payload or raises. *)
Class VendorApi (W : Type) : Type := {
  async_fetch_devices : M W (list (string * pyval));
  async_send : pyval -> string -> pyval -> M W pyval;
  async_status : bool -> M W pyval;
  async_cur_settings : pyval -> M W pyval
}.

(** ** The entity *)

(** The instance attributes of [BobbieWaterHeater].  [_api] is the vendor
    client above.  [_attr_current_operation] and [entity_id] are the
    attributes of the framework's base classes the code reads and writes;
    they start as [None]. *)
Record BobbieWaterHeater : Type := {
  _name : pyval;
  _serial_number : pyval;
  _data : pyval;
  _state : pyval;
  _cur_settings : pyval;
  _status_data : pyval;
  _attr_available : pyval;
  _attr_current_operation : pyval;
  entity_id : pyval
}.

Definition set_status_data (v : pyval) (self : BobbieWaterHeater) :=
  {| _name := _name self; _serial_number := _serial_number self;
     _data := _data self; _state := _state self;
     _cur_settings := _cur_settings self; _status_data := v;
     _attr_available := _attr_available self;
     _attr_current_operation := _attr_current_operation self;
     entity_id := entity_id self |}.

Definition set_cur_settings (v : pyval) (self : BobbieWaterHeater) :=
  {| _name := _name self; _serial_number := _serial_number self;
     _data := _data self; _state := _state self;
     _cur_settings := v; _status_data := _status_data self;
     _attr_available := _attr_available self;
     _attr_current_operation := _attr_current_operation self;
     entity_id := entity_id self |}.

Definition set_attr_available (v : pyval) (self : BobbieWaterHeater) :=
  {| _name := _name self; _serial_number := _serial_number self;
     _data := _data self; _state := _state self;
     _cur_settings := _cur_settings self; _status_data := _status_data self;
     _attr_available := v;
     _attr_current_operation := _attr_current_operation self;
     entity_id := entity_id self |}.

Definition set_attr_current_operation (v : pyval) (self : BobbieWaterHeater) :=
  {| _name := _name self; _serial_number := _serial_number self;
     _data := _data self; _state := _state self;
     _cur_settings := _cur_settings self; _status_data := _status_data self;
     _attr_available := _attr_available self;
     _attr_current_operation := v;
     entity_id := entity_id self |}.

(** An entity as the assignments of the constructor leave it. *)
Definition fresh (name serial_number init_data online : pyval)
    : BobbieWaterHeater :=
  {| _name := name; _serial_number := serial_number;
     _data := init_data; _state := PNone;
     _cur_settings := PNone; _status_data := PNone;
     _attr_available := online;
     _attr_current_operation := PNone; entity_id := PNone |}.

(** What the adapter does to the outside, in the order it does it. *)
Inductive event : Type :=
| EFetchDevices
| ESend (serial_number : pyval) (device_type : string) (state_data : pyval)
| EStatus (cached : bool)
| ECurSettings (serial_number : pyval)
| ESleep (seconds : Z)
| EDebug (msg : string) (arg : pyval)
| EWarning (msg : string) (arg : pyval)
| EAddEntities (entities : list BobbieWaterHeater).

Section Adapter.
Context {FW : Framework} {W : Type} {API : VendorApi W}.

(** The outside of an entity: the vendor client's state and the events so
    far. *)
Record env : Type := { world : W; trace : list event }.

Definition emit (ev : event) : M env unit :=
  modify (fun s => {| world := world s; trace := trace s ++ [ev] |}).

(** An awaited call of the vendor client: the call is recorded, then its
    outcome is the outcome of the [await]. *)
Definition call {A} (ev : event) (m : M W A) : M env A := fun s =>
  let '(r, w') := m (world s) in
  (r, {| world := w'; trace := trace s ++ [ev] |}).

Definition api_fetch_devices : M env (list (string * pyval)) :=
  call EFetchDevices async_fetch_devices.
Definition api_send (serial_number : pyval) (device_type : string)
    (state_data : pyval) : M env pyval :=
  call (ESend serial_number device_type state_data)
       (async_send serial_number device_type state_data).
Definition api_status (cached : bool) : M env pyval :=
  call (EStatus cached) (async_status cached).
Definition api_cur_settings (serial_number : pyval) : M env pyval :=
  call (ECurSettings serial_number) (async_cur_settings serial_number).

(** [asyncio.sleep(seconds)] *)
Definition sleep (seconds : Z) : M env unit := emit (ESleep seconds).
(** [_LOGGER.debug(msg, arg)] and [_LOGGER.warning(msg, arg)] *)
Definition log_debug (msg : string) (arg : pyval) : M env unit :=
  emit (EDebug msg arg).
Definition log_warning (msg : string) (arg : pyval) : M env unit :=
  emit (EWarning msg arg).

(** *** Properties: computations on the entity alone *)

Definition name : M BobbieWaterHeater pyval :=
  gets _name.

Definition available : M BobbieWaterHeater pyval :=
  cur ← gets _cur_settings;
  (if negb (is_None cur) then
     online ← lift (get_method cur "online" (PBool false));
     modify (set_attr_available online)
   else mret tt);;
  gets _attr_available.

Definition current_temperature : M BobbieWaterHeater pyval :=
  status ← gets _status_data;
  if negb (is_None status) then
    lift (get_method status ATTR_HOT (PInt 0))
  else mret PNone.

Definition current_operation : M BobbieWaterHeater pyval :=
  status ← gets _status_data;
  (if is_None status then
     modify (set_attr_current_operation (PStr STATE_UNKNOWN))
   else
     relay ← lift (subscript status (PStr ATTR_RELAY));
     if is_False relay then
       modify (set_attr_current_operation (PStr STATE_OFF))
     else
       load ← lift (subscript status (PStr ATTR_LOAD));
       if is_False load then
         modify (set_attr_current_operation (PStr STATE_ECO))
       else
         load' ← lift (subscript status (PStr ATTR_LOAD));
         if is_True load' then
           modify (set_attr_current_operation (PStr STATE_ELECTRIC))
         else mret tt);;
  gets _attr_current_operation.

Definition temperature_unit : M BobbieWaterHeater string :=
  mret TEMP_CELSIUS.

Definition supported_features : M BobbieWaterHeater Z :=
  mret SUPPORT_FLAGS.

Definition extra_state_attributes : M BobbieWaterHeater pyval :=
  status ← gets _status_data;
  if is_None status then mret (PDict ∅)
  else
    cold ← lift (subscript status (PStr ATTR_COLD));
    unit ← temperature_unit;
    cold ← lift (show_temp cold unit);
    hot ← lift (subscript status (PStr ATTR_HOT));
    unit ← temperature_unit;
    hot ← lift (show_temp hot unit);
    home ← lift (subscript status (PStr ATTR_HOME));
    unit ← temperature_unit;
    home ← lift (show_temp home unit);
    energy ← lift (subscript status (PStr ATTR_ENERGY));
    voltage ← lift (subscript status (PStr ATTR_VOLTAGE));
    current ← lift (subscript status (PStr ATTR_CURRENT));
    relay ← lift (subscript status (PStr ATTR_RELAY));
    load ← lift (subscript status (PStr ATTR_LOAD));
    mret (PDict (<[ATTR_LOAD:=load]> (<[ATTR_RELAY:=relay]>
         (<[ATTR_CURRENT:=current]> (<[ATTR_VOLTAGE:=voltage]>
         (<[ATTR_ENERGY:=energy]> (<[ATTR_HOME:=home]>
         (<[ATTR_HOT:=hot]> (<[ATTR_COLD:=cold]> ∅))))))))).

(** *** Methods: computations on the entity and its outside

    A coroutine runs from one [await] to the next without interruption, and
    an [await] ends with the value or the exception of what is awaited.  The
    methods are modelled one at a time: what other tasks do to the entity
    while a method waits is not part of the model. *)

(** The suite of the [try] of [async_update]. *)
Definition async_update_try : M (BobbieWaterHeater * env) unit :=
  response ← on_snd (api_status true);
  serial_number ← on_fst (gets _serial_number);
  status ← lift (subscript response serial_number);
  on_fst (modify (set_status_data status));;
  status ← on_fst (gets _status_data);
  on_snd (log_debug "Status: %s" status);;
  serial_number ← on_fst (gets _serial_number);
  response ← on_snd (api_cur_settings serial_number);
  settings ← lift (subscript response (PStr "controller"));
  on_fst (modify (set_cur_settings settings));;
  settings ← on_fst (gets _cur_settings);
  on_snd (log_debug "Current settings: %s" settings).

(** The suite of its [except KeyError]. *)
Definition async_update_except : M (BobbieWaterHeater * env) unit :=
  entity_id ← on_fst (gets entity_id);
  on_snd (log_warning "Unable to update entity %s" entity_id).

Definition async_update : M (BobbieWaterHeater * env) unit :=
  try_except async_update_try is_KeyError async_update_except.

Definition async_turn_on : M (BobbieWaterHeater * env) unit :=
  serial_number ← on_fst (gets _serial_number);
  on_snd (api_send serial_number "bobbie" PNone);;
  on_snd (sleep 10);;
  async_update.

Definition async_turn_off : M (BobbieWaterHeater * env) unit :=
  serial_number ← on_fst (gets _serial_number);
  on_snd (api_send serial_number "bobbie"
            (PDict {[ "state" := PStr "off" ]}));;
  on_snd (sleep 10);;
  async_update.

(** The constructor.  Its last statement, [self.async_update()], calls a
    coroutine function without awaiting the result: that builds a
    coroutine object and drops it, the body of [async_update] does not
    run. *)
Definition __init__ (serial_number init_data : pyval)
    : M env BobbieWaterHeater :=
  name ← lift (subscript init_data (PStr "name"));
  online ← lift (get_method init_data "online" (PBool false));
  let self := fresh name serial_number init_data online in
  log_debug "Initial data: %s" (_data self);;
  mret self.

(** *** Setup *)

(** The loop [for device in devices] with its accumulator. *)
Fixpoint for_devices (devices : list pyval)
    (all_devices : list BobbieWaterHeater)
    : M env (list BobbieWaterHeater) :=
  match devices with
  | [] => mret all_devices
  | device :: devices =>
      type ← lift (subscript device (PStr "type"));
      if eq_str type "bobbie" then
        serial_number ← lift (subscript device (PStr "serial_number"));
        entity ← __init__ serial_number device;
        for_devices devices (all_devices ++ [entity])
      else for_devices devices all_devices
  end.

(** [hass.data[DATA_MELISSA]] is the vendor client [API].  The listing is
    a dictionary of which only [values()] is used, in insertion order: it
    is kept as the list of its items.  [async_add_entities] belongs to the
    framework; handing it the list is an event. *)
Definition async_setup_platform : M env unit :=
  listing ← api_fetch_devices;
  let devices := map snd listing in
  all_devices ← for_devices devices [];
  emit (EAddEntities all_devices).

(** *** The framework's side

    The framework reads the properties and awaits the methods of an entity
    in an order of its own choosing.  Whatever a request ends with, a value
    or an exception, the entity and its outside stay as the request left
    them. *)
Inductive property : Type :=
| Name
| Available
| CurrentTemperature
| CurrentOperation
| ExtraStateAttributes.

Definition read (p : property) : M BobbieWaterHeater pyval :=
  match p with
  | Name => name
  | Available => available
  | CurrentTemperature => current_temperature
  | CurrentOperation => current_operation
  | ExtraStateAttributes => extra_state_attributes
  end.

Inductive request : Type :=
| Read (p : property)
| Update
| TurnOn
| TurnOff.

Definition serve (r : request) (st : BobbieWaterHeater * env)
    : BobbieWaterHeater * env :=
  match r with
  | Read p => (on_fst (read p) st).2
  | Update => (async_update st).2
  | TurnOn => (async_turn_on st).2
  | TurnOff => (async_turn_off st).2
  end.

Definition serve_all (rs : list request) (st : BobbieWaterHeater * env)
    : BobbieWaterHeater * env :=
  fold_left (fun st r => serve r st) rs st.

End Adapter.

Arguments env W : clear implicits.

(** The outside after further events that left the vendor client in [w]. *)
Definition after {W} (s : env W) (w : W) (events : list event) : env W :=
  {| world := w; trace := trace s ++ events |}.

(** The events an update can add after its status fetch. *)
Definition follows_status (ev : event) : bool :=
  match ev with
  | ECurSettings _ | EDebug _ _ | EWarning _ _ => true
  | _ => false
  end.

Definition is_settings_fetch (ev : event) : bool :=
  match ev with
  | ECurSettings _ => true
  | _ => false
  end.

(** ** A framework and a vendor client to run the adapter on *)

(** The state names of the framework, and a display that shows a
    temperature as it is. *)
Definition plain_display : Framework := {|
  STATE_ECO := "eco";
  STATE_ELECTRIC := "electric";
  STATE_OFF := "off";
  STATE_UNKNOWN := "unknown";
  TEMP_CELSIUS := "C";
  show_temp := fun temperature _ => Ok temperature
|}.

(** A vendor client that answers every call of a kind the same way. *)
Record canned : Type := {
  canned_devices : result (list (string * pyval));
  canned_send : result pyval;
  canned_status : result pyval;
  canned_settings : result pyval
}.

Definition canned_api : VendorApi canned := {|
  async_fetch_devices := fun w => (canned_devices w, w);
  async_send := fun _ _ _ w => (canned_send w, w);
  async_status := fun _ w => (canned_status w, w);
  async_cur_settings := fun _ w => (canned_settings w, w)
|}.

(** [device["type"] == "bobbie"], for a device that has a type. *)
Definition is_bobbie (device : pyval) : bool :=
  match subscript device (PStr "type") with
  | Ok type => eq_str type "bobbie"
  | Raise _ => false
  end.

(** A device with the fields the setup reads: a type, and for a ["bobbie"]
    a serial number and a name as well. *)
Definition complete_device (device : pyval) : Prop :=
  exists d type,
    device = PDict d /\ d !! "type" = Some type /\
    (eq_str type "bobbie" = true ->
     is_Some (d !! "serial_number") /\ is_Some (d !! "name")).

(** [entity] is what the constructor makes of [device]'s serial number and
    of [device] as initial data. *)
Definition built_from (device : pyval) (entity : BobbieWaterHeater) : Prop :=
  exists d name serial_number,
    device = PDict d /\
    d !! "name" = Some name /\
    d !! "serial_number" = Some serial_number /\
    entity = fresh name serial_number device
               (default (PBool false) (d !! "online")).

(** Every way through [async_update], by the outcomes of the two calls and
    the two lookups. *)
Inductive update_outcome {W} (self : BobbieWaterHeater) (s : env W)
    : result unit -> BobbieWaterHeater -> env W -> Prop :=
| status_failed e w1 :
    update_outcome self s
      (if is_KeyError e then Ok tt else Raise e) self
      (after s w1
         (EStatus true ::
          if is_KeyError e
          then [EWarning "Unable to update entity %s" (entity_id self)]
          else []))
| settings_failed e status w2 :
    update_outcome self s
      (if is_KeyError e then Ok tt else Raise e)
      (set_status_data status self)
      (after s w2
         (EStatus true :: EDebug "Status: %s" status ::
          ECurSettings (_serial_number self) ::
          if is_KeyError e
          then [EWarning "Unable to update entity %s" (entity_id self)]
          else []))
| both_fetched status settings w2 :
    update_outcome self s (Ok tt)
      (set_cur_settings settings (set_status_data status self))
      (after s w2
         [EStatus true; EDebug "Status: %s" status;
          ECurSettings (_serial_number self);
          EDebug "Current settings: %s" settings]).

(** A status payload with all the fields the adapter reads. *)
Definition sample_status (relay load : pyval) : pyval :=
  PDict {[ ATTR_HOT := PInt 48; ATTR_COLD := PInt 15; ATTR_HOME := PInt 21;
           ATTR_ENERGY := PInt 1200; ATTR_VOLTAGE := PInt 231;
           ATTR_CURRENT := PInt 5; ATTR_RELAY := relay; ATTR_LOAD := load ]}.

(** A device of the listing, offline when listed. *)
Definition sample_fields : gmap string pyval :=
  {[ "type" := PStr "bobbie"; "serial_number" := PStr "SN1";
     "name" := PStr "Bobbie"; "online" := PBool false ]}.

Definition sample_device : pyval := PDict sample_fields.

(** The entity of [sample_device] with the given caches. *)
Definition sample_entity (status settings : pyval) : BobbieWaterHeater :=
  set_cur_settings settings
    (set_status_data status
       (fresh (PStr "Bobbie") (PStr "SN1") sample_device (PBool false))).

(** A device of another kind, and a heater listed without a name. *)
Definition other_device : pyval :=
  PDict {[ "type" := PStr "melissa"; "serial_number" := PStr "AC7";
           "name" := PStr "Melissa" ]}.

Definition nameless_device : pyval :=
  PDict {[ "type" := PStr "bobbie"; "serial_number" := PStr "SN2" ]}.

(** A cloud where the heater is on line and heating. *)
Definition heating_cloud : canned := {|
  canned_devices := Ok [("AC7", other_device); ("SN1", sample_device)];
  canned_send := Ok PNone;
  canned_status :=
    Ok (PDict {[ "SN1" := sample_status (PBool true) (PBool true) ]});
  canned_settings :=
    Ok (PDict {[ "controller" := PDict {[ "online" := PBool true ]} ]})
|}.

(** The same cloud with the nameless heater listed as well. *)
Definition nameless_cloud : canned := {|
  canned_devices :=
    Ok [("SN1", sample_device); ("SN2", nameless_device)];
  canned_send := canned_send heating_cloud;
  canned_status := canned_status heating_cloud;
  canned_settings := canned_settings heating_cloud
|}.

(** The same cloud, but its settings answer has no ["controller"]. *)
Definition headless_cloud : canned := {|
  canned_devices := canned_devices heating_cloud;
  canned_send := canned_send heating_cloud;
  canned_status := canned_status heating_cloud;
  canned_settings := Ok (PDict ∅)
|}.

(** A cloud that does not know the device. *)
Definition empty_cloud : canned := {|
  canned_devices := Ok [];
  canned_send := Ok PNone;
  canned_status := Ok (PDict ∅);
  canned_settings := Ok (PDict ∅)
|}.

(** A cloud that cannot be reached. *)
Definition unreachable_cloud : canned := {|
  canned_devices := Raise (ApiError "connection failed");
  canned_send := Raise (ApiError "connection failed");
  canned_status := Raise (ApiError "connection failed");
  canned_settings := Raise (ApiError "connection failed")
|}.

(** The outside at the start: nothing has happened yet. *)
Definition start (w : canned) : env canned := {| world := w; trace := [] |}.

(** ** Vocabulary of the further properties *)

#[export] Instance property_eq_dec : EqDecision property.
Proof. solve_decision. Defined.

(** What identifies an entity: the attributes only the constructor
    assigns. *)
Definition identity (self : BobbieWaterHeater) :=
  (_name self, _serial_number self, _data self, _state self, entity_id self).

(** The keys of the extended attributes. *)
Definition attribute_keys : list string :=
  [ATTR_COLD; ATTR_HOT; ATTR_HOME; ATTR_ENERGY; ATTR_VOLTAGE; ATTR_CURRENT;
   ATTR_RELAY; ATTR_LOAD].

Definition is_debug (ev : event) : bool :=
  match ev with
  | EDebug _ _ => true
  | _ => false
  end.

(** An event that the methods of an entity with this serial number can
    cause: a send of device type ["bobbie"], a 10 second sleep, a cached
    status fetch, a settings fetch for the serial number, a log line. *)
Definition own_event (serial_number : pyval) (ev : event) : Prop :=
  match ev with
  | ESend sn device_type _ => sn = serial_number /\ device_type = "bobbie"
  | ESleep seconds => seconds = 10
  | EStatus cached => cached = true
  | ECurSettings sn => sn = serial_number
  | EDebug _ _ | EWarning _ _ => True
  | EFetchDevices | EAddEntities _ => False
  end.

(** A cloud whose settings answer has [None] for ["controller"]. *)
Definition null_cloud : canned := {|
  canned_devices := canned_devices heating_cloud;
  canned_send := canned_send heating_cloud;
  canned_status := canned_status heating_cloud;
  canned_settings := Ok (PDict {[ "controller" := PNone ]})
|}.

(** A cloud whose status answer is [None], and one whose settings call
    fails. *)
Definition silent_cloud : canned := {|
  canned_devices := canned_devices heating_cloud;
  canned_send := canned_send heating_cloud;
  canned_status := Ok PNone;
  canned_settings := canned_settings heating_cloud
|}.

(** The extended attributes of a heating [sample_status] as
    [plain_display] shows them. *)
Definition sample_attributes : gmap string pyval :=
  {[ ATTR_COLD := PInt 15; ATTR_HOT := PInt 48; ATTR_HOME := PInt 21;
     ATTR_ENERGY := PInt 1200; ATTR_VOLTAGE := PInt 231;
     ATTR_CURRENT := PInt 5; ATTR_RELAY := PBool true;
     ATTR_LOAD := PBool true ]}.

(** A cloud that lists no heater. *)
Definition cooling_cloud : canned := {|
  canned_devices := Ok [("AC7", other_device)];
  canned_send := canned_send heating_cloud;
  canned_status := canned_status heating_cloud;
  canned_settings := canned_settings heating_cloud
|}.

Definition flaky_cloud : canned := {|
  canned_devices := canned_devices heating_cloud;
  canned_send := canned_send heating_cloud;
  canned_status := canned_status heating_cloud;
  canned_settings := Raise (ApiError "connection failed")
|}.

(** Unfolding the plumbing of a computation. *)
Ltac run :=
  unfold mbind, M_bind, mret, M_ret, gets, lift, modify,
    on_fst, on_snd, try_except; cbn.

(** ** Running computations *)

Section Run.
Context {S A B : Type}.

Lemma run_bind_Ok (m : M S A) (k : A -> M S B) s a s' :
  m s = (Ok a, s') -> (m ≫= k) s = k a s'.
Proof. intros H. unfold mbind, M_bind. now rewrite H. Qed.

Lemma run_bind_Raise (m : M S A) (k : A -> M S B) s e s' :
  m s = (Raise e, s') -> (m ≫= k) s = (Raise e, s').
Proof. intros H. unfold mbind, M_bind. now rewrite H. Qed.

Lemma run_bind_lift_Raise (r : result A) (k : A -> M S B) s e :
  r = Raise e -> (lift r ≫= k) s = (Raise e, s).
Proof. now intros ->. Qed.

Lemma run_bind_gets (f : S -> A) (k : A -> M S B) s :
  (gets f ≫= k) s = k (f s) s.
Proof. reflexivity. Qed.

Lemma run_bind_lift_Ok (r : result A) (k : A -> M S B) s a :
  r = Ok a -> (lift r ≫= k) s = k a s.
Proof. now intros ->. Qed.

End Run.

(** ** Values *)

Lemma subscript_dict d key v :
  d !! key = Some v -> subscript (PDict d) (PStr key) = Ok v.
Proof. intros H. cbn. now rewrite H. Qed.

Lemma is_False_spec v : is_False v = true <-> v = PBool false.
Proof.
  split; [|now intros ->].
  destruct v as [| [] | | | | |]; cbn; congruence.
Qed.

Lemma is_False_other v : v <> PBool false -> is_False v = false.
Proof.
  intros H. destruct (is_False v) eqn:E; [|reflexivity].
  now apply is_False_spec in E.
Qed.

(** ** The operating state *)

Section CurrentOperation.
Context {FW : Framework}.

(** C1: [current_operation] derives the operating state from the cached
    status, the cases being tried in the order of the source: UNKNOWN when
    the status cache is [None]; otherwise OFF when the relay flag is
    [False]; otherwise ECO when the load flag is [False]; otherwise
    ELECTRIC when the load flag is [True]. *)
Theorem current_operation_derivation (self : BobbieWaterHeater) :
  (_status_data self = PNone ->
     (current_operation self).1 = Ok (PStr STATE_UNKNOWN)) /\
  (forall d, _status_data self = PDict d ->
     d !! ATTR_RELAY = Some (PBool false) ->
     (current_operation self).1 = Ok (PStr STATE_OFF)) /\
  (forall d relay, _status_data self = PDict d ->
     d !! ATTR_RELAY = Some relay -> relay <> PBool false ->
     d !! ATTR_LOAD = Some (PBool false) ->
     (current_operation self).1 = Ok (PStr STATE_ECO)) /\
  (forall d relay, _status_data self = PDict d ->
     d !! ATTR_RELAY = Some relay -> relay <> PBool false ->
     d !! ATTR_LOAD = Some (PBool true) ->
     (current_operation self).1 = Ok (PStr STATE_ELECTRIC)).
Proof.
  unfold current_operation. repeat split.
  - intros Hs. rewrite run_bind_gets, Hs. reflexivity.
  - intros d Hs Hr. rewrite run_bind_gets, Hs. cbn [is_None].
    run. now rewrite Hr.
  - intros d relay Hs Hr Hne Hl. rewrite run_bind_gets, Hs. cbn [is_None].
    run. rewrite Hr, (is_False_other _ Hne), Hl. reflexivity.
  - intros d relay Hs Hr Hne Hl. rewrite run_bind_gets, Hs. cbn [is_None].
    run. rewrite Hr, (is_False_other _ Hne), Hl. reflexivity.
Qed.

End CurrentOperation.

(** ** The current temperature and the extended attributes *)

Section Readings.
Context {FW : Framework}.

(** C8: before any status has been fetched (the status cache is [None]),
    [extra_state_attributes] returns the empty dictionary: it does not
    raise, and the entity is left as it was. *)
Theorem extra_state_attributes_unfetched (self : BobbieWaterHeater) :
  _status_data self = PNone ->
  extra_state_attributes self = (Ok (PDict ∅), self).
Proof.
  intros Hs. unfold extra_state_attributes.
  rewrite run_bind_gets, Hs. reflexivity.
Qed.

(** C9: [current_temperature] returns [None] while the status cache is
    [None]; on a cached status payload it returns the payload's [hot] field
    when the key is there and 0 when it is not; a [KeyError] it never
    raises. *)
Theorem current_temperature_reads_hot (self : BobbieWaterHeater) :
  (_status_data self = PNone ->
     current_temperature self = (Ok PNone, self)) /\
  (forall d hot, _status_data self = PDict d -> d !! ATTR_HOT = Some hot ->
     current_temperature self = (Ok hot, self)) /\
  (forall d, _status_data self = PDict d -> d !! ATTR_HOT = None ->
     current_temperature self = (Ok (PInt 0), self)) /\
  (current_temperature self).1 <> Raise KeyError.
Proof.
  unfold current_temperature. repeat split.
  - intros Hs. rewrite run_bind_gets, Hs. reflexivity.
  - intros d hot Hs Hh. rewrite run_bind_gets, Hs. run. now rewrite Hh.
  - intros d Hs Hh. rewrite run_bind_gets, Hs. run. now rewrite Hh.
  - rewrite run_bind_gets. destruct (_status_data self); run; congruence.
Qed.

(** C7, amended: on a cached status payload that has all eight keys, and
    whose three temperatures the framework's display conversion accepts,
    [extra_state_attributes] returns a dictionary with exactly the eight
    keys: energy, voltage, current, relay state and load are the payload's
    values, and the hot, cold and home temperatures are the payload's values
    as converted for display.  On a payload that lacks one of the keys the
    property raises instead of returning a dictionary. *)
Theorem extra_state_attributes_complete (self : BobbieWaterHeater) d :
  _status_data self = PDict d ->
  (forall cold hot home energy voltage current relay load cold' hot' home',
     d !! ATTR_COLD = Some cold -> show_temp cold TEMP_CELSIUS = Ok cold' ->
     d !! ATTR_HOT = Some hot -> show_temp hot TEMP_CELSIUS = Ok hot' ->
     d !! ATTR_HOME = Some home -> show_temp home TEMP_CELSIUS = Ok home' ->
     d !! ATTR_ENERGY = Some energy ->
     d !! ATTR_VOLTAGE = Some voltage ->
     d !! ATTR_CURRENT = Some current ->
     d !! ATTR_RELAY = Some relay ->
     d !! ATTR_LOAD = Some load ->
     exists attrs : gmap string pyval,
       extra_state_attributes self = (Ok (PDict attrs), self) /\
       dom attrs = {[ ATTR_HOT; ATTR_COLD; ATTR_HOME; ATTR_ENERGY;
                      ATTR_VOLTAGE; ATTR_CURRENT; ATTR_RELAY; ATTR_LOAD ]} /\
       size attrs = 8%nat /\
       attrs !! ATTR_HOT = Some hot' /\
       attrs !! ATTR_COLD = Some cold' /\
       attrs !! ATTR_HOME = Some home' /\
       attrs !! ATTR_ENERGY = Some energy /\
       attrs !! ATTR_VOLTAGE = Some voltage /\
       attrs !! ATTR_CURRENT = Some current /\
       attrs !! ATTR_RELAY = Some relay /\
       attrs !! ATTR_LOAD = Some load) /\
  (forall key,
     In key [ATTR_HOT; ATTR_COLD; ATTR_HOME; ATTR_ENERGY;
             ATTR_VOLTAGE; ATTR_CURRENT; ATTR_RELAY; ATTR_LOAD] ->
     d !! key = None ->
     exists e, (extra_state_attributes self).1 = Raise e).
Proof.
  intros Hs. split.
  - intros cold hot home energy voltage current relay load cold' hot' home'
      Hc Hc' Hh Hh' Hm Hm' He Hv Hi Hr Hl.
    eexists. split; [|split; [|split]].
    + unfold extra_state_attributes, temperature_unit.
      rewrite run_bind_gets, Hs. run.
      rewrite Hc, Hc', Hh, Hh', Hm, Hm', He, Hv, Hi, Hr, Hl. reflexivity.
    + rewrite !dom_insert_L, dom_empty_L. set_solver.
    + reflexivity.
    + repeat split; reflexivity.
  - intros key Hin Hnone.
    unfold extra_state_attributes, temperature_unit.
    rewrite run_bind_gets, Hs. run.
    repeat (match goal with
            | |- context [match ?x with _ => _ end] => destruct x eqn:?
            end; cbn; eauto).
    unfold ATTR_HOT, ATTR_COLD, ATTR_HOME, ATTR_ENERGY, ATTR_VOLTAGE,
      ATTR_CURRENT, ATTR_RELAY, ATTR_LOAD in *.
    repeat (destruct Hin as [<-|Hin]; [rewrite Hnone in *; discriminate|]).
    destruct Hin.
Qed.

End Readings.

(** ** Updates *)

Section Update.
Context {W : Type} {API : VendorApi W}.
Implicit Types (self : BobbieWaterHeater) (s : env W) (e : exn).

Lemma after_after s w w' evs evs' :
  after (after s w evs) w' evs' = after s w' (evs ++ evs').
Proof. unfold after; cbn. now rewrite <- app_assoc. Qed.

Lemma run_call {A} (ev : event) (m : M W A) s r w :
  m (world s) = (r, w) -> call ev m s = (r, after s w [ev]).
Proof. intros H. unfold call. now rewrite H. Qed.

Lemma run_emit ev s : emit ev s = (Ok tt, after s (world s) [ev]).
Proof. reflexivity. Qed.

(** The five ways through the [try] suite. *)

Lemma try_status_raises self s e w1 :
  async_status true (world s) = (Raise e, w1) ->
  async_update_try (self, s) = (Raise e, (self, after s w1 [EStatus true])).
Proof.
  intros H1. unfold async_update_try, api_status. run.
  now rewrite (run_call _ _ _ _ _ H1).
Qed.

Lemma try_status_index_raises self s e response w1 :
  async_status true (world s) = (Ok response, w1) ->
  subscript response (_serial_number self) = Raise e ->
  async_update_try (self, s) = (Raise e, (self, after s w1 [EStatus true])).
Proof.
  intros H1 H2. unfold async_update_try, api_status. run.
  rewrite (run_call _ _ _ _ _ H1). cbn. now rewrite H2.
Qed.

Lemma try_settings_raises self s e response w1 status w2 :
  async_status true (world s) = (Ok response, w1) ->
  subscript response (_serial_number self) = Ok status ->
  async_cur_settings (_serial_number self) w1 = (Raise e, w2) ->
  async_update_try (self, s)
  = (Raise e,
     (set_status_data status self,
      after s w2 [EStatus true; EDebug "Status: %s" status;
                  ECurSettings (_serial_number self)])).
Proof.
  intros H1 H2 H3. unfold async_update_try, api_status, api_cur_settings.
  run. rewrite (run_call _ _ _ _ _ H1). cbn. rewrite H2. cbn.
  unfold call; cbn. rewrite H3. unfold after; cbn.
  now rewrite <- !app_assoc.
Qed.

Lemma try_settings_index_raises self s e response w1 status response' w2 :
  async_status true (world s) = (Ok response, w1) ->
  subscript response (_serial_number self) = Ok status ->
  async_cur_settings (_serial_number self) w1 = (Ok response', w2) ->
  subscript response' (PStr "controller") = Raise e ->
  async_update_try (self, s)
  = (Raise e,
     (set_status_data status self,
      after s w2 [EStatus true; EDebug "Status: %s" status;
                  ECurSettings (_serial_number self)])).
Proof.
  intros H1 H2 H3 H4. unfold async_update_try, api_status, api_cur_settings.
  run. rewrite (run_call _ _ _ _ _ H1). cbn. rewrite H2. cbn.
  unfold call; cbn. rewrite H3. cbn. rewrite H4. unfold after; cbn.
  now rewrite <- !app_assoc.
Qed.

Lemma try_returns self s response w1 status response' w2 settings :
  async_status true (world s) = (Ok response, w1) ->
  subscript response (_serial_number self) = Ok status ->
  async_cur_settings (_serial_number self) w1 = (Ok response', w2) ->
  subscript response' (PStr "controller") = Ok settings ->
  async_update_try (self, s)
  = (Ok tt,
     (set_cur_settings settings (set_status_data status self),
      after s w2 [EStatus true; EDebug "Status: %s" status;
                  ECurSettings (_serial_number self);
                  EDebug "Current settings: %s" settings])).
Proof.
  intros H1 H2 H3 H4. unfold async_update_try, api_status, api_cur_settings.
  run. rewrite (run_call _ _ _ _ _ H1). cbn. rewrite H2. cbn.
  unfold call; cbn. rewrite H3. cbn. rewrite H4. unfold after; cbn.
  now rewrite <- !app_assoc.
Qed.

Lemma run_except self s :
  async_update_except (self, s)
  = (Ok tt,
     (self, after s (world s)
              [EWarning "Unable to update entity %s" (entity_id self)])).
Proof. reflexivity. Qed.

Lemma run_update_caught self s self' s' e :
  async_update_try (self, s) = (Raise e, (self', s')) ->
  is_KeyError e = true ->
  async_update (self, s)
  = (Ok tt,
     (self', after s' (world s')
               [EWarning "Unable to update entity %s" (entity_id self')])).
Proof.
  intros H He. unfold async_update, try_except.
  now rewrite H, He, run_except.
Qed.

Lemma run_update_uncaught self s self' s' e :
  async_update_try (self, s) = (Raise e, (self', s')) ->
  is_KeyError e = false ->
  async_update (self, s) = (Raise e, (self', s')).
Proof.
  intros H He. unfold async_update, try_except. now rewrite H, He.
Qed.

Lemma run_update_returns self s st' :
  async_update_try (self, s) = (Ok tt, st') ->
  async_update (self, s) = (Ok tt, st').
Proof. intros H. unfold async_update, try_except. now rewrite H. Qed.

(** C2, amended: a missing key is caught, but the two caches are not
    restored together.  When the status answer has no entry for the serial
    number, the entity is left exactly as it was.  When the status was read
    and the settings answer has no ["controller"] entry, the settings cache
    is left as it was and the status cache holds the status just fetched.
    In both cases the update logs a warning and returns. *)
Theorem async_update_missing_key self s response w1 :
  async_status true (world s) = (Ok response, w1) ->
  (subscript response (_serial_number self) = Raise KeyError ->
     async_update (self, s)
     = (Ok tt,
        (self,
         after s w1
           [EStatus true;
            EWarning "Unable to update entity %s" (entity_id self)]))) /\
  (forall status response' w2,
     subscript response (_serial_number self) = Ok status ->
     async_cur_settings (_serial_number self) w1 = (Ok response', w2) ->
     subscript response' (PStr "controller") = Raise KeyError ->
     async_update (self, s)
     = (Ok tt,
        (set_status_data status self,
         after s w2
           [EStatus true; EDebug "Status: %s" status;
            ECurSettings (_serial_number self);
            EWarning "Unable to update entity %s" (entity_id self)]))).
Proof.
  intros H1. split.
  - intros H2.
    rewrite (run_update_caught _ _ _ _ _
               (try_status_index_raises _ _ _ _ _ H1 H2) eq_refl).
    now rewrite after_after.
  - intros status response' w2 H2 H3 H4.
    rewrite (run_update_caught _ _ _ _ _
               (try_settings_index_raises _ _ _ _ _ _ _ _ H1 H2 H3 H4)
               eq_refl).
    now rewrite after_after.
Qed.

(** C3: [async_update] never ends with a [KeyError]: when its [try] suite
    raises one, the update returns.  Any other exception of a vendor call,
    the status call or the settings call, leaves [async_update] as it was
    raised. *)
Theorem async_update_exceptions self s :
  (async_update (self, s)).1 <> Raise KeyError /\
  ((async_update_try (self, s)).1 = Raise KeyError ->
     (async_update (self, s)).1 = Ok tt) /\
  (forall e w1,
     is_KeyError e = false ->
     async_status true (world s) = (Raise e, w1) ->
     (async_update (self, s)).1 = Raise e) /\
  (forall e response w1 status w2,
     is_KeyError e = false ->
     async_status true (world s) = (Ok response, w1) ->
     subscript response (_serial_number self) = Ok status ->
     async_cur_settings (_serial_number self) w1 = (Raise e, w2) ->
     (async_update (self, s)).1 = Raise e).
Proof.
  split; [|split; [|split]].
  - unfold async_update, try_except.
    destruct (async_update_try (self, s)) as [[[]|e] [self' s']]; cbn.
    + discriminate.
    + destruct e; cbn; discriminate.
  - unfold async_update, try_except.
    destruct (async_update_try (self, s)) as [[[]|e] [self' s']]; cbn.
    + discriminate.
    + now intros [= ->].
  - intros e w1 He H1.
    now rewrite (run_update_uncaught _ _ _ _ _
                   (try_status_raises _ _ _ _ H1) He).
  - intros e response w1 status w2 He H1 H2 H3.
    now rewrite (run_update_uncaught _ _ _ _ _
                   (try_settings_raises _ _ _ _ _ _ _ H1 H2 H3) He).
Qed.

Lemma async_update_outcome self s :
  exists r self' s',
    async_update (self, s) = (r, (self', s')) /\
    update_outcome self s r self' s'.
Proof.
  destruct (async_status true (world s)) as [[response|e] w1] eqn:H1.
  2:{ pose proof (try_status_raises self _ _ _ H1) as Ht.
      destruct (is_KeyError e) eqn:He.
      - eexists _, _, _. split; [exact (run_update_caught _ _ _ _ _ Ht He)|].
        rewrite after_after. pose proof (status_failed self s e w1) as Ho.
        now rewrite He in Ho.
      - eexists _, _, _. split; [exact (run_update_uncaught _ _ _ _ _ Ht He)|].
        pose proof (status_failed self s e w1) as Ho.
        now rewrite He in Ho. }
  destruct (subscript response (_serial_number self)) as [status|e] eqn:H2.
  2:{ pose proof (try_status_index_raises self _ _ _ _ H1 H2) as Ht.
      destruct (is_KeyError e) eqn:He.
      - eexists _, _, _. split; [exact (run_update_caught _ _ _ _ _ Ht He)|].
        rewrite after_after. pose proof (status_failed self s e w1) as Ho.
        now rewrite He in Ho.
      - eexists _, _, _. split; [exact (run_update_uncaught _ _ _ _ _ Ht He)|].
        pose proof (status_failed self s e w1) as Ho.
        now rewrite He in Ho. }
  destruct (async_cur_settings (_serial_number self) w1)
    as [[response'|e] w2] eqn:H3.
  2:{ pose proof (try_settings_raises self _ _ _ _ _ _ H1 H2 H3) as Ht.
      destruct (is_KeyError e) eqn:He.
      - eexists _, _, _. split; [exact (run_update_caught _ _ _ _ _ Ht He)|].
        rewrite after_after.
        pose proof (settings_failed self s e status w2) as Ho.
        now rewrite He in Ho.
      - eexists _, _, _. split; [exact (run_update_uncaught _ _ _ _ _ Ht He)|].
        pose proof (settings_failed self s e status w2) as Ho.
        now rewrite He in Ho. }
  destruct (subscript response' (PStr "controller")) as [settings|e] eqn:H4.
  2:{ pose proof (try_settings_index_raises self _ _ _ _ _ _ _ H1 H2 H3 H4)
        as Ht.
      destruct (is_KeyError e) eqn:He.
      - eexists _, _, _. split; [exact (run_update_caught _ _ _ _ _ Ht He)|].
        rewrite after_after.
        pose proof (settings_failed self s e status w2) as Ho.
        now rewrite He in Ho.
      - eexists _, _, _. split; [exact (run_update_uncaught _ _ _ _ _ Ht He)|].
        pose proof (settings_failed self s e status w2) as Ho.
        now rewrite He in Ho. }
  eexists _, _, _. split.
  - exact (run_update_returns _ _ _
             (try_returns self _ _ _ _ _ _ _ H1 H2 H3 H4)).
  - constructor.
Qed.

End Update.

(** ** Commands *)

Section Commands.
Context {W : Type} {API : VendorApi W}.
Implicit Types (self : BobbieWaterHeater) (s : env W).

Lemma update_outcome_trace self s r self' s' :
  update_outcome self s r self' s' ->
  exists rest,
    trace s' = trace s ++ EStatus true :: rest /\
    forallb follows_status rest = true.
Proof.
  intros [e w1|e status w2|status settings w2]; cbn;
    try destruct (is_KeyError e); eexists; split; reflexivity.
Qed.

Lemma async_update_trace self s :
  exists rest,
    trace (async_update (self, s)).2.2 = trace s ++ EStatus true :: rest /\
    forallb follows_status rest = true.
Proof.
  destruct (async_update_outcome self s) as (r & self' & s' & -> & Ho).
  exact (update_outcome_trace _ _ _ _ _ Ho).
Qed.

(** The two commands differ in the [state_data] they send only. *)
Lemma run_command (state_data : pyval) self s :
  let command : M (BobbieWaterHeater * env W) unit :=
    serial_number ← on_fst (gets _serial_number);
    on_snd (api_send serial_number "bobbie" state_data);;
    on_snd (sleep 10);;
    async_update in
  let sent := ESend (_serial_number self) "bobbie" state_data in
  match async_send (_serial_number self) "bobbie" state_data (world s) with
  | (Ok _, w1) =>
      command (self, s) = async_update (self, after s w1 [sent; ESleep 10])
      /\ exists rest,
           trace (command (self, s)).2.2
           = trace s ++ [sent; ESleep 10; EStatus true] ++ rest /\
           forallb follows_status rest = true
  | (Raise e, w1) => command (self, s) = (Raise e, (self, after s w1 [sent]))
  end.
Proof.
  cbn zeta. unfold api_send, sleep, emit. run. unfold call; cbn.
  destruct (async_send (_serial_number self) "bobbie" state_data (world s))
    as [[v|e] w1]; cbn; [|reflexivity].
  set (sent := ESend (_serial_number self) "bobbie" state_data).
  assert (Hs : {| world := w1; trace := (trace s ++ [sent]) ++ [ESleep 10] |}
               = after s w1 [sent; ESleep 10]).
  { unfold after. now rewrite <- app_assoc. }
  rewrite Hs. split; [reflexivity|].
  destruct (async_update_trace self (after s w1 [sent; ESleep 10]))
    as (rest & Ht & Hr).
  exists rest. split; [|exact Hr].
  rewrite Ht. cbn. now rewrite <- app_assoc.
Qed.

(** C5: [async_turn_on] and [async_turn_off] first send one command for
    the entity's serial number.  If the send raises, the command ends there.
    If it returns, the command sleeps 10 seconds and then runs
    [async_update]: the events are the send, the sleep, the status fetch and
    what the update adds after its status fetch, in this order; the status
    is fetched after the send and the sleep, and nothing is sent twice. *)
Theorem command_order self s :
  let serial_number := _serial_number self in
  let off := PDict {[ "state" := PStr "off" ]} in
  match async_send serial_number "bobbie" PNone (world s) with
  | (Ok _, w1) =>
      async_turn_on (self, s)
      = async_update
          (self, after s w1 [ESend serial_number "bobbie" PNone; ESleep 10])
      /\ exists rest,
           trace (async_turn_on (self, s)).2.2
           = trace s ++ [ESend serial_number "bobbie" PNone; ESleep 10;
                         EStatus true] ++ rest /\
           forallb follows_status rest = true
  | (Raise e, w1) =>
      async_turn_on (self, s)
      = (Raise e, (self, after s w1 [ESend serial_number "bobbie" PNone]))
  end /\
  match async_send serial_number "bobbie" off (world s) with
  | (Ok _, w1) =>
      async_turn_off (self, s)
      = async_update
          (self, after s w1 [ESend serial_number "bobbie" off; ESleep 10])
      /\ exists rest,
           trace (async_turn_off (self, s)).2.2
           = trace s ++ [ESend serial_number "bobbie" off; ESleep 10;
                         EStatus true] ++ rest /\
           forallb follows_status rest = true
  | (Raise e, w1) =>
      async_turn_off (self, s)
      = (Raise e, (self, after s w1 [ESend serial_number "bobbie" off]))
  end.
Proof.
  cbn zeta. split.
  - exact (run_command PNone self s).
  - exact (run_command (PDict {[ "state" := PStr "off" ]}) self s).
Qed.

End Commands.

(** ** Setup *)

Section Setup.
Context {W : Type} {API : VendorApi W}.
Implicit Types (s : env W) (devices : list pyval).

Lemma run_init s d name serial_number :
  d !! "name" = Some name ->
  __init__ serial_number (PDict d) s
  = (Ok (fresh name serial_number (PDict d)
           (default (PBool false) (d !! "online"))),
     after s (world s) [EDebug "Initial data: %s" (PDict d)]).
Proof.
  intros Hn. unfold __init__, log_debug, emit. run. now rewrite Hn.
Qed.

Lemma after_nil s : after s (world s) [] = s.
Proof. destruct s. unfold after; cbn. now rewrite app_nil_r. Qed.

Lemma for_devices_complete devices :
  forall all_devices s,
    Forall complete_device devices ->
    exists entities,
      for_devices devices all_devices s
      = (Ok (all_devices ++ entities),
         after s (world s)
           (map (fun entity => EDebug "Initial data: %s" (_data entity))
              entities)) /\
      Forall2 built_from (List.filter is_bobbie devices) entities.
Proof.
  induction devices as [|device devices IH]; intros all_devices s Hall.
  - exists []. cbn. rewrite app_nil_r, after_nil. now split.
  - apply Forall_cons in Hall as [(d & type & -> & Ht & Hb) Hall].
    cbn [for_devices List.filter]. unfold is_bobbie.
    rewrite (run_bind_lift_Ok _ _ _ type) by now apply subscript_dict.
    rewrite (subscript_dict _ _ _ Ht).
    destruct (eq_str type "bobbie") eqn:He.
    + destruct (Hb eq_refl) as [[serial_number Hsn] [name Hn]].
      rewrite (run_bind_lift_Ok _ _ _ serial_number)
        by now apply subscript_dict.
      rewrite (run_bind_Ok _ _ _ _ _ (run_init s d name serial_number Hn)).
      destruct (IH (all_devices ++
                      [fresh name serial_number (PDict d)
                         (default (PBool false) (d !! "online"))])
                  (after s (world s) [EDebug "Initial data: %s" (PDict d)])
                  Hall) as (entities & Hrun & Hbuilt).
      exists (fresh name serial_number (PDict d)
                (default (PBool false) (d !! "online")) :: entities).
      split.
      * rewrite Hrun, <- app_assoc, after_after. reflexivity.
      * constructor; [|exact Hbuilt]. now exists d, name, serial_number.
    + destruct (IH all_devices s Hall) as (entities & Hrun & Hbuilt).
      now exists entities.
Qed.

(** C6, amended: when every device of the listing has a type, and every
    device of type ["bobbie"] a serial number and a name, the setup hands
    the framework one entity for each device of type ["bobbie"], in the
    order of the listing and built from that device's serial number and the
    device as initial data, and no entity for any other device. *)
Theorem async_setup_platform_entities s listing w1 :
  async_fetch_devices (world s) = (Ok listing, w1) ->
  Forall complete_device (map snd listing) ->
  exists entities,
    async_setup_platform s
    = (Ok tt,
       after s w1
         (EFetchDevices ::
          map (fun entity => EDebug "Initial data: %s" (_data entity))
            entities ++
          [EAddEntities entities])) /\
    Forall2 built_from (List.filter is_bobbie (map snd listing)) entities.
Proof.
  intros Hf Hall. unfold async_setup_platform, api_fetch_devices.
  rewrite (run_bind_Ok _ _ _ _ _ (run_call _ _ _ _ _ Hf)).
  destruct (for_devices_complete (map snd listing) []
              (after s w1 [EFetchDevices]) Hall)
    as (entities & Hrun & Hbuilt).
  exists entities. split; [|exact Hbuilt].
  rewrite (run_bind_Ok _ _ _ _ _ Hrun), run_emit. cbn [world after].
  now rewrite !after_after.
Qed.

End Setup.

(** ** Who writes the caches *)

Section Caches.
Context {FW : Framework} {W : Type} {API : VendorApi W}.
Implicit Types (self : BobbieWaterHeater) (s : env W) (p : property).

Ltac cases :=
  repeat (match goal with
          | |- context [match ?x with _ => _ end] =>
              lazymatch x with
              | context [match _ with _ => _ end] => fail
              | _ => destruct x eqn:?
              end
          end; cbn).

Lemma read_unchanged p self :
  In p [Name; CurrentTemperature; ExtraStateAttributes] ->
  (read p self).2 = self.
Proof.
  intros [<-|[<-|[<-|[]]]]; cbn [read].
  - reflexivity.
  - unfold current_temperature. run. cases; reflexivity.
  - unfold extra_state_attributes, temperature_unit. run. cases; reflexivity.
Qed.

Lemma available_settings self d :
  _cur_settings self = PDict d ->
  available self
  = (Ok (default (PBool false) (d !! "online")),
     set_attr_available (default (PBool false) (d !! "online")) self).
Proof. intros Hc. unfold available. rewrite run_bind_gets, Hc. reflexivity. Qed.

Lemma available_no_settings self :
  _cur_settings self = PNone ->
  available self = (Ok (_attr_available self), self).
Proof. intros Hc. unfold available. rewrite run_bind_gets, Hc. reflexivity. Qed.

Lemma read_caches p self :
  _status_data (read p self).2 = _status_data self /\
  _cur_settings (read p self).2 = _cur_settings self.
Proof.
  destruct p.
  - now split.
  - cbn [read]. unfold available. run. cases; now split.
  - now rewrite read_unchanged by (cbn; tauto).
  - cbn [read]. unfold current_operation. run. cases; now split.
  - now rewrite read_unchanged by (cbn; tauto).
Qed.

Lemma read_flag p self :
  p <> Available ->
  _attr_available (read p self).2 = _attr_available self.
Proof.
  intros Hp. destruct p; try congruence.
  - reflexivity.
  - now rewrite read_unchanged by (cbn; tauto).
  - cbn [read]. unfold current_operation. run. cases; reflexivity.
  - now rewrite read_unchanged by (cbn; tauto).
Qed.

Lemma update_outcome_flag self s r self' s' :
  update_outcome self s r self' s' ->
  _attr_available self' = _attr_available self.
Proof. now intros []. Qed.

Lemma async_update_flag self s :
  _attr_available (async_update (self, s)).2.1 = _attr_available self.
Proof.
  destruct (async_update_outcome self s) as (r & self' & s' & -> & Ho).
  exact (update_outcome_flag _ _ _ _ _ Ho).
Qed.

Lemma async_turn_on_flag self s :
  _attr_available (async_turn_on (self, s)).2.1 = _attr_available self.
Proof.
  pose proof (run_command PNone self s) as H. cbn zeta in H.
  unfold async_turn_on.
  destruct (async_send (_serial_number self) "bobbie" PNone (world s))
    as [[v|e] w1].
  - destruct H as [-> _]. apply async_update_flag.
  - now rewrite H.
Qed.

Lemma async_turn_off_flag self s :
  _attr_available (async_turn_off (self, s)).2.1 = _attr_available self.
Proof.
  pose proof (run_command (PDict {[ "state" := PStr "off" ]}) self s) as H.
  cbn zeta in H. unfold async_turn_off.
  destruct (async_send (_serial_number self) "bobbie"
              (PDict {[ "state" := PStr "off" ]}) (world s)) as [[v|e] w1].
  - destruct H as [-> _]. apply async_update_flag.
  - now rewrite H.
Qed.

Lemma init_returns (serial_number : pyval) d s self s' :
  __init__ serial_number (PDict d) s = (Ok self, s') ->
  exists name,
    d !! "name" = Some name /\
    self = fresh name serial_number (PDict d)
             (default (PBool false) (d !! "online")).
Proof.
  unfold __init__, log_debug, emit. run.
  destruct (d !! "name") as [name|]; cbn; [|discriminate].
  intros [= <- _]. now exists name.
Qed.

Lemma available_other_settings self :
  _cur_settings self <> PNone ->
  (forall d, _cur_settings self <> PDict d) ->
  available self = (Raise AttributeError, self).
Proof.
  intros Hnone Hdict. unfold available. rewrite run_bind_gets.
  destruct (_cur_settings self) as [| | | | | |d]; try reflexivity.
  - congruence.
  - now destruct (Hdict d).
Qed.

(** C4, amended: the constructor sets the availability flag to the
    ["online"] entry of the initial data ([False] if there is none) and
    both caches to [None].  No property read changes the status cache or
    the settings cache; [name], [current_temperature] and
    [extra_state_attributes] change nothing at all, and
    [current_operation] leaves the availability flag alone.  The
    availability flag is written by [available]: the read stores the
    settings cache's ["online"] entry ([False] if there is none) when the
    settings cache is a dictionary, changes nothing while that cache is
    [None], and on a cache that is neither raises an [AttributeError] and
    stores nothing.  An update, alone or at the end of a command, never
    writes the flag; when both of its fetches succeed it replaces the status
    cache and the settings cache by what was fetched. *)
Theorem caches_written_by self s :
  (forall p,
     _status_data (read p self).2 = _status_data self /\
     _cur_settings (read p self).2 = _cur_settings self) /\
  (forall p,
     In p [Name; CurrentTemperature; ExtraStateAttributes] ->
     (read p self).2 = self) /\
  (forall p,
     p <> Available ->
     _attr_available (read p self).2 = _attr_available self) /\
  (forall d,
     _cur_settings self = PDict d ->
     (read Available self).2
     = set_attr_available (default (PBool false) (d !! "online")) self) /\
  (_cur_settings self = PNone -> (read Available self).2 = self) /\
  (forall r,
     In r [Update; TurnOn; TurnOff] ->
     _attr_available (serve r (self, s)).1 = _attr_available self) /\
  (forall response w1 status response' w2 settings,
     async_status true (world s) = (Ok response, w1) ->
     subscript response (_serial_number self) = Ok status ->
     async_cur_settings (_serial_number self) w1 = (Ok response', w2) ->
     subscript response' (PStr "controller") = Ok settings ->
     (async_update (self, s)).2.1
     = set_cur_settings settings (set_status_data status self)) /\
  (_cur_settings self <> PNone ->
   (forall d, _cur_settings self <> PDict d) ->
   read Available self = (Raise AttributeError, self)) /\
  (forall (serial_number : pyval) d new s',
     __init__ serial_number (PDict d) s = (Ok new, s') ->
     _attr_available new = default (PBool false) (d !! "online") /\
     _status_data new = PNone /\ _cur_settings new = PNone).
Proof.
  split; [|split; [|split; [|split; [|split; [|split; [|split; [|split]]]]]]].
  - intros p. apply read_caches.
  - intros p. apply read_unchanged.
  - intros p. apply read_flag.
  - intros d Hc. cbn [read]. now rewrite (available_settings _ _ Hc).
  - intros Hc. cbn [read]. now rewrite (available_no_settings _ Hc).
  - intros r [<-|[<-|[<-|[]]]]; cbn [serve].
    + apply async_update_flag.
    + apply async_turn_on_flag.
    + apply async_turn_off_flag.
  - intros response w1 status response' w2 settings H1 H2 H3 H4.
    now rewrite (run_update_returns _ _ _
                   (try_returns self _ _ _ _ _ _ _ H1 H2 H3 H4)).
  - intros Hnone Hdict. cbn [read].
    exact (available_other_settings _ Hnone Hdict).
  - intros serial_number d new s' Hinit.
    destruct (init_returns _ _ _ _ _ Hinit) as (name & _ & ->).
    now repeat split.
Qed.

(** *** Before the settings are fetched *)

Lemma update_outcome_settings self s r self' s' :
  update_outcome self s r self' s' ->
  exists events,
    trace s' = trace s ++ events /\
    (forallb (fun ev => negb (is_settings_fetch ev)) events = true ->
     _cur_settings self' = _cur_settings self).
Proof.
  intros [e w1|e status w2|status settings w2]; cbn;
    (eexists; split; [reflexivity|]); cbn; intros H;
    reflexivity || discriminate H.
Qed.

Lemma serve_step (r : request) self s :
  exists events,
    trace (serve r (self, s)).2 = trace s ++ events /\
    (forallb (fun ev => negb (is_settings_fetch ev)) events = true ->
     _cur_settings self = PNone ->
     _cur_settings (serve r (self, s)).1 = PNone /\
     _attr_available (serve r (self, s)).1 = _attr_available self).
Proof.
  assert (Hupdate : forall s0 : env W,
    exists events,
      trace (async_update (self, s0)).2.2 = trace s0 ++ events /\
      (forallb (fun ev => negb (is_settings_fetch ev)) events = true ->
       _cur_settings self = PNone ->
       _cur_settings (async_update (self, s0)).2.1 = PNone /\
       _attr_available (async_update (self, s0)).2.1
       = _attr_available self)).
  { intros s0. pose proof (async_update_flag self s0) as Hflag.
    destruct (async_update_outcome self s0) as (r0 & self' & s' & Hr & Ho).
    rewrite Hr in *. cbn [fst snd] in *.
    destruct (update_outcome_settings _ _ _ _ _ Ho) as (events & Ht & Hc).
    exists events. split; [exact Ht|]. intros Hev Hnone.
    rewrite (Hc Hev). now split. }
  assert (Hcommand : forall state_data,
    let command : M (BobbieWaterHeater * env W) unit :=
      serial_number ← on_fst (gets _serial_number);
      on_snd (api_send serial_number "bobbie" state_data);;
      on_snd (sleep 10);;
      async_update in
    exists events,
      trace (command (self, s)).2.2 = trace s ++ events /\
      (forallb (fun ev => negb (is_settings_fetch ev)) events = true ->
       _cur_settings self = PNone ->
       _cur_settings (command (self, s)).2.1 = PNone /\
       _attr_available (command (self, s)).2.1 = _attr_available self)).
  { intros state_data. pose proof (run_command state_data self s) as H.
    cbn zeta in *.
    destruct (async_send (_serial_number self) "bobbie" state_data (world s))
      as [[v|e] w1].
    - destruct H as [-> _].
      destruct (Hupdate
                  (after s w1 [ESend (_serial_number self) "bobbie" state_data;
                               ESleep 10])) as (events & Ht & Hc).
      eexists. split.
      + rewrite Ht. cbn. rewrite <- app_assoc. reflexivity.
      + cbn. exact Hc.
    - rewrite H. eexists. split; [reflexivity|]. now split. }
  destruct r as [p| | |]; cbn [serve].
  - exists []. split.
    + unfold on_fst; cbn. destruct (read p self). cbn. now rewrite app_nil_r.
    + intros _ Hnone. unfold on_fst; cbn.
      destruct (read p self) as [v self'] eqn:Hread. cbn.
      replace self' with (read p self).2 by now rewrite Hread.
      split.
      * now rewrite (proj2 (read_caches p self)).
      * destruct p; try (apply read_flag; discriminate).
        cbn [read]. now rewrite (available_no_settings _ Hnone).
  - apply Hupdate.
  - apply (Hcommand PNone).
  - apply (Hcommand (PDict {[ "state" := PStr "off" ]})).
Qed.

Lemma serve_all_steps (rs : list request) :
  forall self s,
  exists events,
    trace (serve_all rs (self, s)).2 = trace s ++ events /\
    (forallb (fun ev => negb (is_settings_fetch ev)) events = true ->
     _cur_settings self = PNone ->
     _cur_settings (serve_all rs (self, s)).1 = PNone /\
     _attr_available (serve_all rs (self, s)).1 = _attr_available self).
Proof.
  induction rs as [|r rs IH]; intros self s.
  - exists []. cbn. rewrite app_nil_r. now split.
  - cbn [serve_all fold_left].
    destruct (serve_step r self s) as (events1 & Ht1 & Hc1).
    destruct (serve r (self, s)) as [self1 s1] eqn:Hserve.
    destruct (IH self1 s1) as (events2 & Ht2 & Hc2).
    cbn [fst snd] in *. exists (events1 ++ events2). split.
    + unfold serve_all in Ht2. rewrite Ht2, Ht1. now rewrite app_assoc.
    + rewrite forallb_app. intros [He1 He2]%andb_prop Hnone.
      destruct (Hc1 He1 Hnone) as [Hnone1 Hflag1].
      destruct (Hc2 He2 Hnone1) as [Hnone2 Hflag2].
      unfold serve_all in *. split; [exact Hnone2|congruence].
Qed.

Lemma serve_keeps_settings (r : request) self s :
  exists events,
    trace (serve r (self, s)).2 = trace s ++ events /\
    (forallb (fun ev => negb (is_settings_fetch ev)) events = true ->
     _cur_settings (serve r (self, s)).1 = _cur_settings self).
Proof.
  assert (Hupdate : forall s0 : env W,
    exists events,
      trace (async_update (self, s0)).2.2 = trace s0 ++ events /\
      (forallb (fun ev => negb (is_settings_fetch ev)) events = true ->
       _cur_settings (async_update (self, s0)).2.1 = _cur_settings self)).
  { intros s0.
    destruct (async_update_outcome self s0) as (r0 & self' & s' & -> & Ho).
    exact (update_outcome_settings _ _ _ _ _ Ho). }
  assert (Hcommand : forall state_data,
    let command : M (BobbieWaterHeater * env W) unit :=
      serial_number ← on_fst (gets _serial_number);
      on_snd (api_send serial_number "bobbie" state_data);;
      on_snd (sleep 10);;
      async_update in
    exists events,
      trace (command (self, s)).2.2 = trace s ++ events /\
      (forallb (fun ev => negb (is_settings_fetch ev)) events = true ->
       _cur_settings (command (self, s)).2.1 = _cur_settings self)).
  { intros state_data. pose proof (run_command state_data self s) as H.
    cbn zeta in *.
    destruct (async_send (_serial_number self) "bobbie" state_data (world s))
      as [[v|e] w1].
    - destruct H as [-> _].
      destruct (Hupdate
                  (after s w1 [ESend (_serial_number self) "bobbie" state_data;
                               ESleep 10])) as (events & Ht & Hc).
      eexists. split.
      + rewrite Ht. cbn. rewrite <- app_assoc. reflexivity.
      + cbn. exact Hc.
    - rewrite H. eexists. split; [reflexivity|]. reflexivity. }
  destruct r as [p| | |]; cbn [serve].
  - exists []. unfold on_fst; cbn.
    destruct (read p self) as [v self'] eqn:Hread. cbn. split.
    + now rewrite app_nil_r.
    + intros _. replace self' with (read p self).2 by now rewrite Hread.
      apply read_caches.
  - apply Hupdate.
  - apply (Hcommand PNone).
  - apply (Hcommand (PDict {[ "state" := PStr "off" ]})).
Qed.

Lemma serve_all_keeps_settings (rs : list request) :
  forall self s,
  exists events,
    trace (serve_all rs (self, s)).2 = trace s ++ events /\
    (forallb (fun ev => negb (is_settings_fetch ev)) events = true ->
     _cur_settings (serve_all rs (self, s)).1 = _cur_settings self).
Proof.
  induction rs as [|r rs IH]; intros self s.
  - exists []. cbn. rewrite app_nil_r. now split.
  - cbn [serve_all fold_left].
    destruct (serve_keeps_settings r self s) as (events1 & Ht1 & Hc1).
    destruct (serve r (self, s)) as [self1 s1] eqn:Hserve.
    destruct (IH self1 s1) as (events2 & Ht2 & Hc2).
    cbn [fst snd] in *. exists (events1 ++ events2). split.
    + unfold serve_all in Ht2. rewrite Ht2, Ht1. now rewrite app_assoc.
    + rewrite forallb_app. intros [He1 He2]%andb_prop.
      unfold serve_all in *. now rewrite (Hc2 He2), (Hc1 He1).
Qed.

(** C10, amended: when an update has fetched the settings and they are a
    dictionary, then from that update on, whatever the framework asks of
    the entity, as long as no further settings fetch happens [available]
    returns the ["online"] entry of the settings fetched, [False] if there
    is none.  When the settings fetched are [None], [available] keeps
    returning the availability flag as it was before that update.  From the
    construction of the entity on, as long as no settings have been
    fetched, [available] returns the ["online"] entry of the initial data,
    [False] if there is none. *)
Theorem available_source :
  (forall self s response w1 status response' w2 settings
          (requests : list request) events,
     async_status true (world s) = (Ok response, w1) ->
     subscript response (_serial_number self) = Ok status ->
     async_cur_settings (_serial_number self) w1 = (Ok response', w2) ->
     subscript response' (PStr "controller") = Ok settings ->
     let updated := (async_update (self, s)).2 in
     let later := serve_all requests updated in
     trace later.2 = trace updated.2 ++ events ->
     forallb (fun ev => negb (is_settings_fetch ev)) events = true ->
     (forall d,
        settings = PDict d ->
        (available later.1).1 = Ok (default (PBool false) (d !! "online"))) /\
     (settings = PNone ->
      (available later.1).1 = Ok (_attr_available self))) /\
  (forall serial_number d s self s' (requests : list request) events,
     __init__ serial_number (PDict d) s = (Ok self, s') ->
     trace (serve_all requests (self, s')).2 = trace s' ++ events ->
     forallb (fun ev => negb (is_settings_fetch ev)) events = true ->
     (available (serve_all requests (self, s')).1).1
     = Ok (default (PBool false) (d !! "online"))).
Proof.
  split.
  - intros self s response w1 status response' w2 settings requests events
      H1 H2 H3 H4. cbn zeta.
    rewrite (run_update_returns _ _ _
               (try_returns self _ _ _ _ _ _ _ H1 H2 H3 H4)).
    cbn [fst snd].
    set (self1 := set_cur_settings settings (set_status_data status self)).
    set (s1 := after s w2 _).
    intros Ht Hev. split.
    + intros d ->.
      destruct (serve_all_keeps_settings requests self1 s1)
        as (events' & Ht' & Hc).
      rewrite Ht' in Ht. apply app_inv_head in Ht. subst events'.
      now rewrite (available_settings _ d) by (rewrite (Hc Hev); reflexivity).
    + intros ->.
      destruct (serve_all_steps requests self1 s1) as (events' & Ht' & Hc).
      rewrite Ht' in Ht. apply app_inv_head in Ht. subst events'.
      destruct (Hc Hev eq_refl) as [Hnone Hflag].
      rewrite (available_no_settings _ Hnone). cbn. now rewrite Hflag.
  - intros serial_number d s self s' requests events Hinit Ht Hev.
    destruct (init_returns _ _ _ _ _ Hinit) as (name & _ & ->).
    destruct (serve_all_steps requests
                (fresh name serial_number (PDict d)
                   (default (PBool false) (d !! "online"))) s')
      as (events' & Ht' & Hc).
    rewrite Ht' in Ht. apply app_inv_head in Ht. subst events'.
    destruct (Hc Hev eq_refl) as [Hnone' Hflag'].
    rewrite (available_no_settings _ Hnone'). cbn. now rewrite Hflag'.
Qed.

End Caches.

(** ** Further properties of the readings *)

Section MoreReadings.
Context {FW : Framework}.
Implicit Types (self : BobbieWaterHeater) (p q : property).

Ltac cases :=
  repeat (match goal with
          | |- context [match ?x with _ => _ end] =>
              lazymatch x with
              | context [match _ with _ => _ end] => fail
              | _ => destruct x eqn:?
              end
          end; cbn).

(** X1: on a status payload without the relay flag, and on one whose relay
    flag is not [False] and that has no load flag, [current_operation]
    raises a [KeyError] and leaves the entity as it was. *)
Theorem current_operation_missing_flag self d :
  _status_data self = PDict d ->
  (d !! ATTR_RELAY = None ->
     current_operation self = (Raise KeyError, self)) /\
  (forall relay,
     d !! ATTR_RELAY = Some relay -> relay <> PBool false ->
     d !! ATTR_LOAD = None ->
     current_operation self = (Raise KeyError, self)).
Proof.
  intros Hs. unfold current_operation. rewrite run_bind_gets, Hs. split.
  - intros Hr. run. now rewrite Hr.
  - intros relay Hr Hne Hl. run.
    now rewrite Hr, (is_False_other _ Hne), Hl.
Qed.

Lemma is_True_other v : v <> PBool true -> is_True v = false.
Proof. intros H. destruct v as [| [] | | | | |]; cbn; congruence. Qed.

(** X2: when the relay flag is not [False] and the load flag is neither
    [False] nor [True] (the number 1, say), no branch assigns:
    [current_operation] returns the operation stored by an earlier read,
    and leaves the entity as it was. *)
Theorem current_operation_stale self d relay load :
  _status_data self = PDict d ->
  d !! ATTR_RELAY = Some relay -> relay <> PBool false ->
  d !! ATTR_LOAD = Some load -> load <> PBool false -> load <> PBool true ->
  current_operation self = (Ok (_attr_current_operation self), self).
Proof.
  intros Hs Hr Hnr Hl Hnf Hnt. unfold current_operation.
  rewrite run_bind_gets, Hs. run.
  now rewrite Hr, (is_False_other _ Hnr), Hl, (is_False_other _ Hnf),
    (is_True_other _ Hnt).
Qed.

(** X3: [current_operation] writes nothing but the stored operation: when
    it returns, the entity differs from before at most in that attribute,
    which holds the value returned; when it raises, the entity is as it
    was. *)
Theorem current_operation_writes self :
  match current_operation self with
  | (Ok v, self') => self' = set_attr_current_operation v self
  | (Raise _, self') => self' = self
  end.
Proof.
  destruct self. unfold current_operation. run. cases; reflexivity.
Qed.

(** X4: [available] writes nothing but the availability flag, which after
    a read that returns holds the value returned.  It raises only an
    [AttributeError], and only on a settings cache that is neither [None]
    nor a dictionary; the entity is then as it was. *)
Theorem available_writes self :
  match available self with
  | (Ok v, self') => self' = set_attr_available v self
  | (Raise e, self') =>
      e = AttributeError /\ self' = self /\
      _cur_settings self <> PNone /\
      forall d, _cur_settings self <> PDict d
  end.
Proof.
  destruct self as [n sn dt st cur status flag op eid].
  unfold available. run. destruct cur; cbn; repeat split; congruence.
Qed.

(** X5: [current_temperature] never changes the entity.  It raises exactly
    when the status cache is neither [None] nor a dictionary, and then an
    [AttributeError]. *)
Theorem current_temperature_raises self :
  (current_temperature self).2 = self /\
  ((exists e, (current_temperature self).1 = Raise e) <->
   _status_data self <> PNone /\ forall d, _status_data self <> PDict d) /\
  (forall e, (current_temperature self).1 = Raise e -> e = AttributeError).
Proof.
  unfold current_temperature. rewrite run_bind_gets.
  destruct (_status_data self); cbn; (split; [reflexivity|split]);
    try (intros e [=]; congruence);
    try (split; [intros _; split; congruence | intros _; eauto]);
    split; try (intros [e [=]]); intros [H1 H2]; try congruence;
    exfalso; eapply H2; reflexivity.
Qed.

Lemma read_after_flag p v self :
  p <> Available ->
  (read p (set_attr_available v self)).1 = (read p self).1.
Proof.
  intros Hp. destruct self as [n sn dt st cur status flag op eid].
  destruct p; try congruence; cbn [read];
    unfold name, current_temperature, current_operation,
      extra_state_attributes, temperature_unit;
    run; cases; reflexivity.
Qed.

Lemma read_after_operation p v self :
  p <> CurrentOperation ->
  (read p (set_attr_current_operation v self)).1 = (read p self).1.
Proof.
  intros Hp. destruct self as [n sn dt st cur status flag op eid].
  destruct p; try congruence; cbn [read];
    unfold name, available, current_temperature,
      extra_state_attributes, temperature_unit;
    run; cases; reflexivity.
Qed.

Lemma read_twice p self : read p (read p self).2 = read p self.
Proof.
  destruct p.
  - reflexivity.
  - destruct self as [n sn dt st cur status flag op eid].
    cbn [read]. unfold available. run. destruct cur; reflexivity.
  - now rewrite read_unchanged by (cbn; tauto).
  - destruct self as [n sn dt st cur status flag op eid].
    cbn [read]. unfold current_operation. run.
    cases; first [reflexivity | congruence].
  - now rewrite read_unchanged by (cbn; tauto).
Qed.

Lemma available_state self :
  (available self).2 = self \/
  exists v, (available self).2 = set_attr_available v self.
Proof.
  destruct self as [n sn dt st cur status flag op eid].
  unfold available. run. destruct cur; cbn; eauto.
Qed.

Lemma current_operation_state self :
  (current_operation self).2 = self \/
  exists v, (current_operation self).2 = set_attr_current_operation v self.
Proof.
  destruct self as [n sn dt st cur status flag op eid].
  unfold current_operation. run. cases; eauto.
Qed.

Lemma read_independent p q self :
  (read p (read q self).2).1 = (read p self).1.
Proof.
  destruct (decide (p = q)) as [->|Hne].
  { now rewrite read_twice. }
  destruct q.
  - reflexivity.
  - cbn [read]. destruct (available_state self) as [->|[v ->]].
    + reflexivity.
    + now apply read_after_flag.
  - now rewrite read_unchanged by (cbn; tauto).
  - cbn [read]. destruct (current_operation_state self) as [->|[v ->]].
    + reflexivity.
    + now apply read_after_operation.
  - now rewrite read_unchanged by (cbn; tauto).
Qed.

(** X6: reading a property again, any number of times, gives the same
    outcome and leaves the entity as the first read left it: what a read
    stores is what the next read of the same property stores again. *)
Theorem read_idempotent p (n : nat) self :
  let again := Nat.iter n (fun self => (read p self).2) (read p self).2 in
  again = (read p self).2 /\ read p again = read p self.
Proof.
  cbn zeta. induction n as [|n [IHstate IHread]].
  - split; [reflexivity|apply read_twice].
  - rewrite Nat.iter_succ, IHstate, read_twice.
    split; [reflexivity|apply read_twice].
Qed.

(** X7: the outcome of reading a property does not depend on the
    properties read before it, however many: what [available] and
    [current_operation] store is read by themselves alone and stored anew
    each time. *)
Theorem read_history_free p (qs : list property) self :
  (read p (fold_left (fun self q => (read q self).2) qs self)).1
  = (read p self).1.
Proof.
  revert self. induction qs as [|q qs IH]; intros self; cbn [fold_left].
  - reflexivity.
  - now rewrite IH, read_independent.
Qed.

(** X8: [extra_state_attributes] returns all or nothing.  Whenever it
    returns, the entity is as it was, and the result is the empty
    dictionary, on a status cache that is [None], or a dictionary with
    exactly the eight keys, on a status payload that is a dictionary with
    all of them; energy, voltage, current, relay state and load are then
    the payload's entries.  A part of the attributes is never returned. *)
Theorem extra_state_attributes_all_or_nothing self v self' :
  extra_state_attributes self = (Ok v, self') ->
  self' = self /\
  ((_status_data self = PNone /\ v = PDict ∅) \/
   exists d attrs,
     _status_data self = PDict d /\ v = PDict attrs /\
     dom attrs = list_to_set attribute_keys /\
     Forall (fun key => is_Some (d !! key)) attribute_keys /\
     Forall (fun key => attrs !! key = d !! key)
       [ATTR_ENERGY; ATTR_VOLTAGE; ATTR_CURRENT; ATTR_RELAY; ATTR_LOAD]).
Proof.
  unfold extra_state_attributes, temperature_unit. rewrite run_bind_gets.
  destruct (_status_data self) as [| | | | | |d] eqn:Hs; run;
    try (intros [= <- <-]; split; [reflexivity|left; now split]);
    try discriminate.
  unfold ATTR_HOT, ATTR_COLD, ATTR_HOME, ATTR_ENERGY, ATTR_VOLTAGE,
    ATTR_CURRENT, ATTR_RELAY, ATTR_LOAD.
  cases; try discriminate. intros [= <- <-]. split; [reflexivity|].
  right. eexists d, _. split; [reflexivity|]. split; [reflexivity|].
  split; [|split].
  - rewrite !dom_insert_L, dom_empty_L. cbn. set_solver.
  - repeat constructor; eauto.
  - repeat (constructor;
              [etransitivity; [|symmetry; eassumption]; reflexivity|]).
    constructor.
Qed.

(** X9: whenever the extended attributes of a fetched status can be read,
    [current_temperature] returns the payload's own hot temperature, not
    the default, and the ["hot"] attribute is that temperature as the
    framework converts it for display. *)
Theorem extra_hot_is_current_temperature self attrs :
  _status_data self <> PNone ->
  (extra_state_attributes self).1 = Ok (PDict attrs) ->
  exists d hot hot',
    _status_data self = PDict d /\ d !! ATTR_HOT = Some hot /\
    (current_temperature self).1 = Ok hot /\
    show_temp hot TEMP_CELSIUS = Ok hot' /\
    attrs !! ATTR_HOT = Some hot'.
Proof.
  unfold extra_state_attributes, current_temperature, temperature_unit.
  rewrite !run_bind_gets.
  destruct (_status_data self) as [| | | | | |d] eqn:Hs; run;
    try congruence; try discriminate.
  intros _.
  unfold ATTR_HOT, ATTR_COLD, ATTR_HOME, ATTR_ENERGY, ATTR_VOLTAGE,
    ATTR_CURRENT, ATTR_RELAY, ATTR_LOAD.
  cases; try discriminate. intros [= <-].
  eexists d, _, _. repeat split; eauto.
Qed.

End MoreReadings.

(** ** Further properties of the update *)

Section MoreUpdate.
Context {W : Type} {API : VendorApi W}.
Implicit Types (self : BobbieWaterHeater) (s : env W) (e : exn).

Lemma run_update_raised self s self' s' e :
  async_update_try (self, s) = (Raise e, (self', s')) ->
  async_update (self, s)
  = (if is_KeyError e then Ok tt else Raise e,
     (self',
      after s' (world s')
        (if is_KeyError e
         then [EWarning "Unable to update entity %s" (entity_id self')]
         else []))).
Proof.
  intros Ht. destruct (is_KeyError e) eqn:He.
  - exact (run_update_caught _ _ _ _ _ Ht He).
  - rewrite (run_update_uncaught _ _ _ _ _ Ht He). now rewrite after_nil.
Qed.

(** X10: when the status was fetched and the settings call itself fails,
    the status cache keeps the status just fetched and the settings cache
    is as it was, whether the failure is a [KeyError], which is logged, or
    any other exception, which [async_update] raises: an update that fails
    on the settings is not undone. *)
Theorem async_update_settings_call_fails self s e response w1 status w2 :
  async_status true (world s) = (Ok response, w1) ->
  subscript response (_serial_number self) = Ok status ->
  async_cur_settings (_serial_number self) w1 = (Raise e, w2) ->
  async_update (self, s)
  = (if is_KeyError e then Ok tt else Raise e,
     (set_status_data status self,
      after s w2
        (EStatus true :: EDebug "Status: %s" status ::
         ECurSettings (_serial_number self) ::
         if is_KeyError e
         then [EWarning "Unable to update entity %s" (entity_id self)]
         else []))).
Proof.
  intros H1 H2 H3.
  rewrite (run_update_raised _ _ _ _ _
             (try_settings_raises _ _ _ _ _ _ _ H1 H2 H3)).
  rewrite after_after. reflexivity.
Qed.

(** X11: when the status cannot be had for a reason other than a
    [KeyError], because the call raises or because its answer cannot be
    indexed by the serial number (the answer is [None], say, which gives a
    [TypeError]), [async_update] raises that exception, the entity is as it
    was, and the settings are not asked for. *)
Theorem async_update_status_fails self s e :
  is_KeyError e = false ->
  (forall w1,
     async_status true (world s) = (Raise e, w1) ->
     async_update (self, s) = (Raise e, (self, after s w1 [EStatus true]))) /\
  (forall response w1,
     async_status true (world s) = (Ok response, w1) ->
     subscript response (_serial_number self) = Raise e ->
     async_update (self, s) = (Raise e, (self, after s w1 [EStatus true]))).
Proof.
  intros He. split.
  - intros w1 H1.
    exact (run_update_uncaught _ _ _ _ _ (try_status_raises _ _ _ _ H1) He).
  - intros response w1 H1 H2.
    exact (run_update_uncaught _ _ _ _ _
             (try_status_index_raises _ _ _ _ _ H1 H2) He).
Qed.

Ltac fetched Hex :=
  cbn; split;
  [split; [intros _; do 2 right; left; reflexivity | intros _; exact Hex]
  |split; [lia|intros sn Hin; intuition congruence]].

(** X12: an update asks for the settings exactly when its status fetch
    returned an answer that has an entry for the serial number; it then
    asks once, for the entity's own serial number. *)
Theorem async_update_settings_fetch self s :
  exists events,
    trace (async_update (self, s)).2.2 = trace s ++ events /\
    ((exists response w1 status,
        async_status true (world s) = (Ok response, w1) /\
        subscript response (_serial_number self) = Ok status) <->
     In (ECurSettings (_serial_number self)) events) /\
    (length (List.filter is_settings_fetch events) <= 1)%nat /\
    (forall sn, In (ECurSettings sn) events -> sn = _serial_number self).
Proof.
  destruct (async_status true (world s)) as [[response|e] w1] eqn:H1.
  2:{ rewrite (run_update_raised _ _ _ _ _ (try_status_raises _ _ _ _ H1)).
      rewrite after_after. eexists. split; [reflexivity|].
      destruct (is_KeyError e); cbn; (split; [split|split]);
        try lia; try (intros (? & ? & ? & [=] & _));
        intuition discriminate. }
  destruct (subscript response (_serial_number self)) as [status|e] eqn:H2.
  2:{ rewrite (run_update_raised _ _ _ _ _
                 (try_status_index_raises _ _ _ _ _ H1 H2)).
      rewrite after_after. eexists. split; [reflexivity|].
      destruct (is_KeyError e); cbn; (split; [split|split]);
        try lia; try (intros (? & ? & ? & [= <- <-] & ?); congruence);
        intuition discriminate. }
  assert (Hex : exists r w status,
             (Ok response, w1) = (Ok r, w) /\
             subscript r (_serial_number self) = Ok status)
    by (now exists response, w1, status).
  destruct (async_cur_settings (_serial_number self) w1)
    as [[response'|e] w2] eqn:H3.
  2:{ rewrite (run_update_raised _ _ _ _ _
                 (try_settings_raises _ _ _ _ _ _ _ H1 H2 H3)).
      rewrite after_after. eexists. split; [reflexivity|].
      destruct (is_KeyError e); fetched Hex. }
  destruct (subscript response' (PStr "controller")) as [settings|e] eqn:H4.
  2:{ rewrite (run_update_raised _ _ _ _ _
                 (try_settings_index_raises _ _ _ _ _ _ _ _ H1 H2 H3 H4)).
      rewrite after_after. eexists. split; [reflexivity|].
      destruct (is_KeyError e); fetched Hex. }
  rewrite (run_update_returns _ _ _
             (try_returns _ _ _ _ _ _ _ _ H1 H2 H3 H4)).
  eexists. split; [reflexivity|].
  fetched Hex.
Qed.

End MoreUpdate.

(** ** Further properties of the constructor and the setup *)

Section MoreSetup.
Context {W : Type} {API : VendorApi W}.
Implicit Types (s : env W) (devices : list pyval).

Lemma subscript_name_raises init_data e :
  subscript init_data (PStr "name") = Raise e ->
  e = KeyError \/ e = TypeError.
Proof.
  destruct init_data as [| | | | | |d]; cbn; try (intros [= <-]; tauto).
  destruct (d !! "name"); intros [= <-]; tauto.
Qed.

Lemma subscript_name_returns init_data name :
  subscript init_data (PStr "name") = Ok name ->
  exists d, init_data = PDict d /\ d !! "name" = Some name.
Proof.
  destruct init_data as [| | | | | |d]; cbn; try discriminate.
  destruct (d !! "name") eqn:Hn; intros [= <-]. now exists d.
Qed.

(** X13: the constructor makes no vendor call: it leaves the vendor client
    as it was and adds at most its debug line.  It returns exactly on
    initial data that are a dictionary with a name; the entity then has the
    serial number and the initial data it was given, and both caches are
    [None], the update written at the end of the constructor not being
    awaited.  Otherwise it raises a [KeyError] (no name) or a [TypeError]
    (not a dictionary) and nothing has happened. *)
Theorem init_outcome (serial_number init_data : pyval) s :
  let run := __init__ serial_number init_data s in
  world run.2 = world s /\
  ((exists self, run.1 = Ok self) <->
   (exists d name, init_data = PDict d /\ d !! "name" = Some name)) /\
  (forall self,
     run.1 = Ok self ->
     _serial_number self = serial_number /\ _data self = init_data /\
     _status_data self = PNone /\ _cur_settings self = PNone /\
     run.2 = after s (world s) [EDebug "Initial data: %s" init_data]) /\
  (forall e,
     run.1 = Raise e -> run.2 = s /\ (e = KeyError \/ e = TypeError)).
Proof.
  cbn zeta.
  destruct (subscript init_data (PStr "name")) as [name|e] eqn:Hname.
  - destruct (subscript_name_returns _ _ Hname) as (d & -> & Hn).
    rewrite (run_init s d name serial_number Hn). cbn.
    split; [reflexivity|]. split; [|split].
    + split; intros _; eauto.
    + intros self [= <-]. now repeat split.
    + discriminate.
  - unfold __init__. rewrite (run_bind_lift_Raise _ _ _ _ Hname). cbn.
    split; [reflexivity|]. split; [|split].
    + split; [intros [self [=]]|].
      intros (d & name & -> & Hn). cbn in Hname. now rewrite Hn in Hname.
    + discriminate.
    + intros e' [= <-]. split; [reflexivity|].
      exact (subscript_name_raises _ _ Hname).
Qed.

Lemma init_debug (serial_number init_data : pyval) s :
  exists debugs,
    (__init__ serial_number init_data s).2
    = after s (world s) debugs /\
    forallb is_debug debugs = true.
Proof.
  destruct (subscript init_data (PStr "name")) as [name|e] eqn:Hname.
  - destruct (subscript_name_returns _ _ Hname) as (d & -> & Hn).
    rewrite (run_init s d name serial_number Hn). now eexists.
  - unfold __init__. rewrite (run_bind_lift_Raise _ _ _ _ Hname).
    exists []. now rewrite after_nil.
Qed.

Lemma for_devices_debug devices :
  forall all_devices s,
  exists debugs,
    (for_devices devices all_devices s).2 = after s (world s) debugs /\
    forallb is_debug debugs = true.
Proof.
  induction devices as [|device devices IH]; intros all_devices s.
  - exists []. cbn. now rewrite after_nil.
  - destruct (subscript device (PStr "type")) as [type|e] eqn:Ht;
      cbn [for_devices].
    2:{ rewrite (run_bind_lift_Raise _ _ _ _ Ht). exists [].
        now rewrite after_nil. }
    rewrite (run_bind_lift_Ok _ _ _ _ Ht).
    destruct (eq_str type "bobbie"); [|apply IH].
    destruct (subscript device (PStr "serial_number"))
      as [serial_number|e] eqn:Hsn.
    2:{ rewrite (run_bind_lift_Raise (Raise e) _ _ e eq_refl).
        exists []. now rewrite after_nil. }
    rewrite (run_bind_lift_Ok (Ok serial_number) _ _ serial_number eq_refl).
    destruct (init_debug serial_number device s) as (debugs1 & Hi & Hd1).
    destruct (__init__ serial_number device s) as [[entity|e] s1] eqn:Hinit;
      cbn [snd] in Hi; subst s1.
    + rewrite (run_bind_Ok _ _ _ _ _ Hinit).
      destruct (IH (all_devices ++ [entity]) (after s (world s) debugs1))
        as (debugs2 & -> & Hd2).
      exists (debugs1 ++ debugs2). rewrite after_after. split; [reflexivity|].
      rewrite forallb_app. now rewrite Hd1, Hd2.
    + rewrite (run_bind_Raise _ _ _ _ _ Hinit). now exists debugs1.
Qed.

(** X14: the setup hands over its entities in one piece or not at all.
    Whatever the listing, the events of a setup are the fetch of the
    listing, then debug lines of the constructors, then, if and only if the
    setup returns, one [async_add_entities]; a setup that raises has handed
    the framework no entity. *)
Theorem async_setup_platform_all_or_nothing s :
  exists debugs,
    forallb is_debug debugs = true /\
    match async_setup_platform s with
    | (Ok _, s') =>
        exists entities,
          trace s' = trace s ++ EFetchDevices :: debugs
                       ++ [EAddEntities entities]
    | (Raise _, s') => trace s' = trace s ++ EFetchDevices :: debugs
    end.
Proof.
  unfold async_setup_platform, api_fetch_devices.
  destruct (async_fetch_devices (world s)) as [[listing|e] w1] eqn:Hf.
  2:{ rewrite (run_bind_Raise _ _ _ _ _ (run_call _ _ _ _ _ Hf)).
      now exists []. }
  rewrite (run_bind_Ok _ _ _ _ _ (run_call _ _ _ _ _ Hf)).
  destruct (for_devices_debug (map snd listing) []
              (after s w1 [EFetchDevices])) as (debugs & Hs & Hd).
  exists debugs. split; [exact Hd|].
  destruct (for_devices (map snd listing) [] (after s w1 [EFetchDevices]))
    as [[entities|e] s1] eqn:Hrun; cbn [snd] in Hs; subst s1.
  - rewrite (run_bind_Ok _ _ _ _ _ Hrun), run_emit. exists entities.
    cbn. now rewrite <- !app_assoc.
  - rewrite (run_bind_Raise _ _ _ _ _ Hrun). cbn. now rewrite <- app_assoc.
Qed.

Lemma for_devices_returns devices :
  forall all_devices s entities,
    (for_devices devices all_devices s).1 = Ok entities ->
    Forall complete_device devices.
Proof.
  induction devices as [|device devices IH]; intros all_devices s entities.
  - constructor.
  - destruct (subscript device (PStr "type")) as [type|e] eqn:Ht;
      cbn [for_devices].
    2:{ now rewrite (run_bind_lift_Raise _ _ _ _ Ht). }
    rewrite (run_bind_lift_Ok _ _ _ _ Ht).
    assert (Hd : exists d, device = PDict d /\ d !! "type" = Some type).
    { destruct device as [| | | | | |d]; cbn in Ht; try discriminate.
      destruct (d !! "type") eqn:Hty; [|discriminate].
      injection Ht as ->. now exists d. }
    destruct Hd as (d & -> & Hty).
    destruct (eq_str type "bobbie") eqn:He.
    + destruct (d !! "serial_number") as [serial_number|] eqn:Hsn.
      2:{ rewrite (run_bind_lift_Raise _ _ _ KeyError)
            by (cbn; now rewrite Hsn).
          discriminate. }
      rewrite (run_bind_lift_Ok _ _ _ serial_number)
        by (cbn; now rewrite Hsn).
      destruct (d !! "name") as [name|] eqn:Hn.
      2:{ unfold __init__ at 1.
          rewrite (run_bind_Raise _ _ _ KeyError s).
          - discriminate.
          - apply run_bind_lift_Raise. cbn. now rewrite Hn. }
      rewrite (run_bind_Ok _ _ _ _ _ (run_init s d name serial_number Hn)).
      intros Hrun. constructor; [|exact (IH _ _ _ Hrun)].
      exists d, type. split; [reflexivity|]. split; [exact Hty|].
      intros _. split; eauto.
    + intros Hrun. constructor; [|exact (IH _ _ _ Hrun)].
      exists d, type. split; [reflexivity|]. split; [exact Hty|].
      congruence.
Qed.

(** X15: the setup returns exactly when the listing could be fetched and
    every device listed has a type, and a serial number and a name when
    the type is ["bobbie"]; a failure of the fetch is the failure of the
    setup.  One device short of a field is enough to keep all the heaters
    of the account out of the framework. *)
Theorem async_setup_platform_returns s :
  ((async_setup_platform s).1 = Ok tt <->
   exists listing w1,
     async_fetch_devices (world s) = (Ok listing, w1) /\
     Forall complete_device (map snd listing)) /\
  (forall e w1,
     async_fetch_devices (world s) = (Raise e, w1) ->
     async_setup_platform s = (Raise e, after s w1 [EFetchDevices])).
Proof.
  unfold async_setup_platform, api_fetch_devices.
  destruct (async_fetch_devices (world s)) as [[listing|e] w1] eqn:Hf.
  2:{ rewrite (run_bind_Raise _ _ _ _ _ (run_call _ _ _ _ _ Hf)). split.
      - split; [discriminate|]. now intros (? & ? & [=] & _).
      - now intros e' w1' [= <- <-]. }
  rewrite (run_bind_Ok _ _ _ _ _ (run_call _ _ _ _ _ Hf)).
  split; [|discriminate]. split.
  - intros Hrun. exists listing, w1. split; [reflexivity|].
    destruct (for_devices (map snd listing) [] (after s w1 [EFetchDevices]))
      as [[entities|e] s1] eqn:Hloop.
    + eapply for_devices_returns. now rewrite Hloop.
    + now rewrite (run_bind_Raise _ _ _ _ _ Hloop) in Hrun.
  - intros (listing' & w1' & [= <- <-] & Hall).
    destruct (for_devices_complete (map snd listing) []
                (after s w1 [EFetchDevices]) Hall)
      as (entities & Hloop & _).
    now rewrite (run_bind_Ok _ _ _ _ _ Hloop).
Qed.

(** X16: a listing without a heater is no error: when every device listed
    has a type and none is of type ["bobbie"], as in an empty listing, the
    setup constructs nothing and still calls [async_add_entities], with
    the empty list. *)
Theorem async_setup_platform_no_heater s listing w1 :
  async_fetch_devices (world s) = (Ok listing, w1) ->
  Forall complete_device (map snd listing) ->
  List.filter is_bobbie (map snd listing) = [] ->
  async_setup_platform s
  = (Ok tt, after s w1 [EFetchDevices; EAddEntities []]).
Proof.
  intros Hf Hall Hnone. unfold async_setup_platform, api_fetch_devices.
  rewrite (run_bind_Ok _ _ _ _ _ (run_call _ _ _ _ _ Hf)).
  destruct (for_devices_complete (map snd listing) []
              (after s w1 [EFetchDevices]) Hall)
    as (entities & Hloop & Hbuilt).
  rewrite Hnone in Hbuilt. inversion Hbuilt; subst.
  rewrite (run_bind_Ok _ _ _ _ _ Hloop), run_emit. cbn.
  now rewrite !after_after.
Qed.

End MoreSetup.

(** ** What no request does *)

Section MoreCaches.
Context {FW : Framework} {W : Type} {API : VendorApi W}.
Implicit Types (self : BobbieWaterHeater) (s : env W) (r : request).

Lemma read_identity (p : property) self :
  identity (read p self).2 = identity self.
Proof.
  destruct p.
  - reflexivity.
  - cbn [read]. now destruct (available_state self) as [->|[v ->]].
  - now rewrite read_unchanged by (cbn; tauto).
  - cbn [read]. now destruct (current_operation_state self) as [->|[v ->]].
  - now rewrite read_unchanged by (cbn; tauto).
Qed.

Lemma update_outcome_own self s res self' s' :
  update_outcome self s res self' s' ->
  identity self' = identity self /\
  exists events,
    trace s' = trace s ++ events /\
    Forall (own_event (_serial_number self)) events.
Proof.
  intros [e w1|e status w2|status settings w2]; (split; [reflexivity|]);
    cbn; try destruct (is_KeyError e); eexists; (split; [reflexivity|]);
    repeat constructor.
Qed.

Lemma async_update_own self s :
  identity (async_update (self, s)).2.1 = identity self /\
  exists events,
    trace (async_update (self, s)).2.2 = trace s ++ events /\
    Forall (own_event (_serial_number self)) events.
Proof.
  destruct (async_update_outcome self s) as (res & self' & s' & -> & Ho).
  exact (update_outcome_own _ _ _ _ _ Ho).
Qed.

Lemma command_own (state_data : pyval) self s :
  let command : M (BobbieWaterHeater * env W) unit :=
    serial_number ← on_fst (gets _serial_number);
    on_snd (api_send serial_number "bobbie" state_data);;
    on_snd (sleep 10);;
    async_update in
  identity (command (self, s)).2.1 = identity self /\
  exists events,
    trace (command (self, s)).2.2 = trace s ++ events /\
    Forall (own_event (_serial_number self)) events.
Proof.
  pose proof (run_command state_data self s) as H. cbn zeta in *.
  destruct (async_send (_serial_number self) "bobbie" state_data (world s))
    as [[v|e] w1].
  - destruct H as [-> _].
    destruct (async_update_own self
                (after s w1 [ESend (_serial_number self) "bobbie" state_data;
                             ESleep 10])) as (Hid & events & Ht & Hown).
    split; [exact Hid|]. eexists. split.
    + rewrite Ht. cbn. rewrite <- app_assoc. reflexivity.
    + repeat constructor. exact Hown.
  - rewrite H. split; [reflexivity|]. eexists. split; [reflexivity|].
    repeat constructor.
Qed.

Lemma serve_own r self s :
  identity (serve r (self, s)).1 = identity self /\
  exists events,
    trace (serve r (self, s)).2 = trace s ++ events /\
    Forall (own_event (_serial_number self)) events.
Proof.
  destruct r as [p| | |]; cbn [serve].
  - unfold on_fst; cbn. pose proof (read_identity p self) as Hid.
    destruct (read p self) as [v self']. cbn in *. split; [exact Hid|].
    exists []. now rewrite app_nil_r.
  - apply async_update_own.
  - apply (command_own PNone).
  - apply (command_own (PDict {[ "state" := PStr "off" ]})).
Qed.

Lemma serve_all_own (rs : list request) :
  forall self s,
    identity (serve_all rs (self, s)).1 = identity self /\
    exists events,
      trace (serve_all rs (self, s)).2 = trace s ++ events /\
      Forall (own_event (_serial_number self)) events.
Proof.
  induction rs as [|r rs IH]; intros self s.
  - split; [reflexivity|]. exists []. cbn. now rewrite app_nil_r.
  - cbn [serve_all fold_left].
    destruct (serve_own r self s) as (Hid1 & events1 & Ht1 & Hown1).
    destruct (serve r (self, s)) as [self1 s1].
    destruct (IH self1 s1) as (Hid2 & events2 & Ht2 & Hown2).
    cbn [fst snd] in *. unfold serve_all in *.
    assert (Hsn : _serial_number self1 = _serial_number self)
      by (unfold identity in Hid1; congruence).
    split; [congruence|]. exists (events1 ++ events2). split.
    + rewrite Ht2, Ht1. now rewrite app_assoc.
    + apply Forall_app. split; [exact Hown1|]. now rewrite <- Hsn.
Qed.

(** X17: whatever the framework asks of an entity, in whatever order and
    however the requests end, the name, the serial number, the initial
    data, the [_state] attribute and the entity id stay what they were:
    reads, updates and commands write the two caches, the availability
    flag and the stored operation, and nothing else. *)
Theorem identity_kept (rs : list request) self s :
  let self' := (serve_all rs (self, s)).1 in
  _name self' = _name self /\
  _serial_number self' = _serial_number self /\
  _data self' = _data self /\
  _state self' = _state self /\
  entity_id self' = entity_id self.
Proof.
  cbn zeta. destruct (serve_all_own rs self s) as [Hid _].
  unfold identity in Hid. injection Hid as H1 H2 H3 H4 H5.
  now repeat split.
Qed.

(** X18: whatever the framework asks of an entity, what the entity does to
    the outside is: sends of device type ["bobbie"] for its own serial
    number, sleeps of 10 seconds, status fetches that accept a cached
    answer, settings fetches for its own serial number, and log lines.  It
    never asks for another device, never fetches the listing and never
    registers entities. *)
Theorem requests_events (rs : list request) self s :
  exists events,
    trace (serve_all rs (self, s)).2 = trace s ++ events /\
    Forall (own_event (_serial_number self)) events.
Proof.
  destruct (serve_all_own rs self s) as [_ Hev]. exact Hev.
Qed.

(** X19: after an update whose two fetches succeeded on dictionaries, the
    readings are those of the answers just fetched: [current_temperature]
    returns the hot temperature of the fetched status (0 if it has none)
    and [available] the ["online"] entry of the fetched settings ([False]
    if they have none), whatever the caches and the flag held before. *)
Theorem update_then_read self s response w1 status response' w2 settings :
  async_status true (world s) = (Ok response, w1) ->
  subscript response (_serial_number self) = Ok (PDict status) ->
  async_cur_settings (_serial_number self) w1 = (Ok response', w2) ->
  subscript response' (PStr "controller") = Ok (PDict settings) ->
  let self' := (async_update (self, s)).2.1 in
  (current_temperature self').1 = Ok (default (PInt 0) (status !! ATTR_HOT)) /\
  (available self').1 = Ok (default (PBool false) (settings !! "online")).
Proof.
  intros H1 H2 H3 H4. cbn zeta.
  rewrite (run_update_returns _ _ _
             (try_returns self _ _ _ _ _ _ _ H1 H2 H3 H4)).
  cbn [fst snd]. split.
  - reflexivity.
  - now rewrite (available_settings _ settings).
Qed.

End MoreCaches.

(** ** Concrete runs *)

Lemma current_operation_derivation_witness :
  (@current_operation plain_display (sample_entity PNone PNone)).1
    = Ok (PStr "unknown") /\
  (@current_operation plain_display
     (sample_entity (sample_status (PBool false) (PBool true)) PNone)).1
    = Ok (PStr "off") /\
  (@current_operation plain_display
     (sample_entity (sample_status (PBool true) (PBool false)) PNone)).1
    = Ok (PStr "eco") /\
  (@current_operation plain_display
     (sample_entity (sample_status (PBool true) (PBool true)) PNone)).1
    = Ok (PStr "electric").
Proof.
  split; [|split; [|split]].
  - apply (@current_operation_derivation plain_display). reflexivity.
  - eapply (@current_operation_derivation plain_display);
      [reflexivity | vm_compute; reflexivity].
  - eapply (@current_operation_derivation plain_display);
      [reflexivity | vm_compute; reflexivity | discriminate
      | vm_compute; reflexivity].
  - eapply (@current_operation_derivation plain_display);
      [reflexivity | vm_compute; reflexivity | discriminate
      | vm_compute; reflexivity].
Defined.

Lemma extra_state_attributes_unfetched_witness :
  @extra_state_attributes plain_display (sample_entity PNone PNone)
  = (Ok (PDict ∅), sample_entity PNone PNone).
Proof. apply extra_state_attributes_unfetched. reflexivity. Defined.

Lemma current_temperature_reads_hot_witness :
  @current_temperature
     (sample_entity (sample_status (PBool true) (PBool true)) PNone)
  = (Ok (PInt 48),
     sample_entity (sample_status (PBool true) (PBool true)) PNone) /\
  @current_temperature (sample_entity (PDict ∅) PNone)
  = (Ok (PInt 0), sample_entity (PDict ∅) PNone) /\
  @current_temperature (sample_entity PNone PNone)
  = (Ok PNone, sample_entity PNone PNone).
Proof.
  split; [|split].
  - eapply current_temperature_reads_hot;
      [reflexivity | vm_compute; reflexivity].
  - eapply current_temperature_reads_hot; reflexivity.
  - apply current_temperature_reads_hot. reflexivity.
Defined.

#[local] Existing Instance canned_api.

Lemma async_update_missing_key_witness :
  async_update (sample_entity PNone PNone, start empty_cloud)
  = (Ok tt,
     (sample_entity PNone PNone,
      after (start empty_cloud) empty_cloud
        [EStatus true; EWarning "Unable to update entity %s" PNone])) /\
  async_update (sample_entity PNone PNone, start headless_cloud)
  = (Ok tt,
     (sample_entity (sample_status (PBool true) (PBool true)) PNone,
      after (start headless_cloud) headless_cloud
        [EStatus true;
         EDebug "Status: %s" (sample_status (PBool true) (PBool true));
         ECurSettings (PStr "SN1");
         EWarning "Unable to update entity %s" PNone])).
Proof.
  split.
  - eapply (async_update_missing_key (sample_entity PNone PNone)
              (start empty_cloud)); reflexivity.
  - eapply (async_update_missing_key (sample_entity PNone PNone)
              (start headless_cloud)); reflexivity.
Defined.

(** C2 as stated fails: the settings answer lacks its key, the [KeyError]
    is caught, and the status cache has changed all the same. *)
Lemma async_update_not_atomic :
  let before := sample_entity PNone PNone in
  let run := async_update (before, start headless_cloud) in
  (async_update_try (before, start headless_cloud)).1 = Raise KeyError /\
  run.1 = Ok tt /\
  _status_data before = PNone /\
  _status_data run.2.1 = sample_status (PBool true) (PBool true) /\
  _status_data run.2.1 <> _status_data before.
Proof. vm_compute. repeat split; discriminate. Qed.

Lemma async_update_exceptions_witness :
  (async_update (sample_entity PNone PNone, start headless_cloud)).1
    = Ok tt /\
  (async_update (sample_entity PNone PNone, start unreachable_cloud)).1
    = Raise (ApiError "connection failed").
Proof.
  split.
  - apply async_update_exceptions. reflexivity.
  - destruct (async_update_exceptions (sample_entity PNone PNone)
                (start unreachable_cloud)) as (_ & _ & Hstatus & _).
    now apply (Hstatus _ unreachable_cloud).
Defined.

Lemma extra_state_attributes_complete_witness :
  (exists attrs : gmap string pyval,
     @extra_state_attributes plain_display
       (sample_entity (sample_status (PBool true) (PBool false)) PNone)
     = (Ok (PDict attrs),
        sample_entity (sample_status (PBool true) (PBool false)) PNone) /\
     dom attrs = {[ ATTR_HOT; ATTR_COLD; ATTR_HOME; ATTR_ENERGY;
                    ATTR_VOLTAGE; ATTR_CURRENT; ATTR_RELAY; ATTR_LOAD ]} /\
     size attrs = 8%nat /\
     attrs !! ATTR_HOT = Some (PInt 48) /\
     attrs !! ATTR_COLD = Some (PInt 15) /\
     attrs !! ATTR_HOME = Some (PInt 21) /\
     attrs !! ATTR_ENERGY = Some (PInt 1200) /\
     attrs !! ATTR_VOLTAGE = Some (PInt 231) /\
     attrs !! ATTR_CURRENT = Some (PInt 5) /\
     attrs !! ATTR_RELAY = Some (PBool true) /\
     attrs !! ATTR_LOAD = Some (PBool false)) /\
  (exists e,
     (@extra_state_attributes plain_display
        (sample_entity (PDict {[ ATTR_HOT := PInt 48 ]}) PNone)).1
     = Raise e).
Proof.
  split.
  - destruct (@extra_state_attributes_complete plain_display
                (sample_entity (sample_status (PBool true) (PBool false))
                   PNone) _ eq_refl) as [Hcomplete _].
    eapply Hcomplete; vm_compute; reflexivity.
  - destruct (@extra_state_attributes_complete plain_display
                (sample_entity (PDict {[ ATTR_HOT := PInt 48 ]}) PNone)
                _ eq_refl) as [_ Hmissing].
    apply (Hmissing ATTR_LOAD); [cbn; tauto | vm_compute; reflexivity].
Defined.

(** C7 as stated fails: a status payload has been fetched, it has a hot
    temperature and nothing else, and the property raises. *)
Lemma extra_state_attributes_incomplete :
  let self := sample_entity (PDict {[ ATTR_HOT := PInt 48 ]}) PNone in
  is_None (_status_data self) = false /\
  @extra_state_attributes plain_display self = (Raise KeyError, self).
Proof. vm_compute. split; reflexivity. Qed.

Lemma turn_off_run :
  (async_turn_off (sample_entity PNone PNone, start heating_cloud)).2.2
  = after (start heating_cloud) heating_cloud
      [ESend (PStr "SN1") "bobbie" (PDict {[ "state" := PStr "off" ]});
       ESleep 10; EStatus true;
       EDebug "Status: %s" (sample_status (PBool true) (PBool true));
       ECurSettings (PStr "SN1");
       EDebug "Current settings: %s" (PDict {[ "online" := PBool true ]})].
Proof. reflexivity. Qed.

Lemma async_setup_platform_entities_witness :
  exists entities,
    async_setup_platform (start heating_cloud)
    = (Ok tt,
       after (start heating_cloud) heating_cloud
         (EFetchDevices ::
          map (fun entity => EDebug "Initial data: %s" (_data entity))
            entities ++
          [EAddEntities entities])) /\
    Forall2 built_from [sample_device] entities.
Proof.
  apply (async_setup_platform_entities (start heating_cloud)
           [("AC7", other_device); ("SN1", sample_device)]);
    [reflexivity|].
  repeat constructor.
  - eexists _, (PStr "melissa").
    split; [reflexivity|split; [vm_compute; reflexivity|]].
    vm_compute. discriminate.
  - eexists _, (PStr "bobbie").
    split; [reflexivity|split; [vm_compute; reflexivity|]].
    intros _. split; eexists; vm_compute; reflexivity.
Defined.

(** C6 as stated fails: two heaters are listed, one without a name; the
    constructor raises on it, and the framework is handed no entity. *)
Lemma async_setup_platform_nameless :
  is_bobbie sample_device = true /\
  is_bobbie nameless_device = true /\
  async_setup_platform (start nameless_cloud)
  = (Raise KeyError,
     after (start nameless_cloud) nameless_cloud
       [EFetchDevices; EDebug "Initial data: %s" sample_device]).
Proof. vm_compute. repeat split. Qed.

Lemma caches_written_by_witness :
  (read (FW := plain_display) Available
     (sample_entity PNone (PDict {[ "online" := PBool true ]}))).2
  = set_attr_available (PBool true)
      (sample_entity PNone (PDict {[ "online" := PBool true ]})) /\
  (read (FW := plain_display) Available (sample_entity PNone PNone)).2
  = sample_entity PNone PNone /\
  (async_update (sample_entity PNone PNone, start heating_cloud)).2.1
  = sample_entity (sample_status (PBool true) (PBool true))
      (PDict {[ "online" := PBool true ]}) /\
  read (FW := plain_display) Available
    (sample_entity PNone (PList [PStr "online"]))
  = (Raise AttributeError, sample_entity PNone (PList [PStr "online"])) /\
  (_attr_available
     (fresh (PStr "Bobbie") (PStr "SN1") sample_device (PBool false))
   = PBool false /\
   _status_data
     (fresh (PStr "Bobbie") (PStr "SN1") sample_device (PBool false))
   = PNone /\
   _cur_settings
     (fresh (PStr "Bobbie") (PStr "SN1") sample_device (PBool false))
   = PNone).
Proof.
  split; [|split; [|split; [|split]]].
  - destruct (@caches_written_by plain_display _ canned_api
                (sample_entity PNone (PDict {[ "online" := PBool true ]}))
                (start heating_cloud)) as (_ & _ & _ & Hwrite & _).
    exact (Hwrite _ eq_refl).
  - destruct (@caches_written_by plain_display _ canned_api
                (sample_entity PNone PNone) (start heating_cloud))
      as (_ & _ & _ & _ & Hkeep & _).
    exact (Hkeep eq_refl).
  - destruct (@caches_written_by plain_display _ canned_api
                (sample_entity PNone PNone) (start heating_cloud))
      as (_ & _ & _ & _ & _ & _ & Hrefresh & _).
    exact (Hrefresh _ heating_cloud _ _ heating_cloud _
             eq_refl eq_refl eq_refl eq_refl).
  - destruct (@caches_written_by plain_display _ canned_api
                (sample_entity PNone (PList [PStr "online"]))
                (start heating_cloud))
      as (_ & _ & _ & _ & _ & _ & _ & Hraise & _).
    apply Hraise; [discriminate|]. intros d. discriminate.
  - destruct (@caches_written_by plain_display _ canned_api
                (sample_entity PNone PNone) (start heating_cloud))
      as (_ & _ & _ & _ & _ & _ & _ & _ & Hnew).
    exact (Hnew (PStr "SN1") sample_fields _ _ eq_refl).
Defined.

(** C4 as stated fails: the entity is constructed off line and updated
    once, which leaves the availability flag as it was; reading
    [available] then changes the flag. *)
Lemma available_writes_flag :
  let self := fresh (PStr "Bobbie") (PStr "SN1") sample_device (PBool false) in
  let s :=
    after (start heating_cloud) heating_cloud
      [EDebug "Initial data: %s" sample_device] in
  let self' := (async_update (self, s)).2.1 in
  __init__ (PStr "SN1") sample_device (start heating_cloud) = (Ok self, s) /\
  (async_update (self, s)).1 = Ok tt /\
  _attr_available self = PBool false /\
  _attr_available self' = PBool false /\
  available self' = (Ok (PBool true), set_attr_available (PBool true) self') /\
  _attr_available (available self').2 <> _attr_available self'.
Proof. vm_compute. repeat split. discriminate. Qed.

Lemma available_source_witness :
  (available
     (serve_all (FW := plain_display) [Read CurrentOperation; Read Available]
        (async_update (sample_entity PNone PNone, start heating_cloud)).2).1).1
  = Ok (PBool true) /\
  (available
     (serve_all (FW := plain_display) [Read Available]
        (async_update
           (set_attr_available (PBool true) (sample_entity PNone PNone),
            start null_cloud)).2).1).1
  = Ok (PBool true) /\
  (available
     (serve_all (FW := plain_display)
        [Read CurrentOperation; Update; Read Available]
        (fresh (PStr "Bobbie") (PStr "SN1") sample_device (PBool false),
         after (start empty_cloud) empty_cloud
           [EDebug "Initial data: %s" sample_device])).1).1
  = Ok (PBool false).
Proof.
  destruct (@available_source plain_display _ canned_api)
    as [Hfetched Hbefore].
  split; [|split].
  - destruct (Hfetched (sample_entity PNone PNone) (start heating_cloud)
                (PDict {[ "SN1" := sample_status (PBool true) (PBool true) ]})
                heating_cloud (sample_status (PBool true) (PBool true))
                (PDict {[ "controller" :=
                            PDict {[ "online" := PBool true ]} ]})
                heating_cloud (PDict {[ "online" := PBool true ]})
                [Read CurrentOperation; Read Available] []
                eq_refl eq_refl eq_refl eq_refl)
      as [Hdict _].
    + vm_compute. reflexivity.
    + reflexivity.
    + exact (Hdict _ eq_refl).
  - destruct (Hfetched
                (set_attr_available (PBool true) (sample_entity PNone PNone))
                (start null_cloud)
                (PDict {[ "SN1" := sample_status (PBool true) (PBool true) ]})
                null_cloud (sample_status (PBool true) (PBool true))
                (PDict {[ "controller" := PNone ]})
                null_cloud PNone
                [Read Available] []
                eq_refl eq_refl eq_refl eq_refl)
      as [_ Hnull].
    + vm_compute. reflexivity.
    + reflexivity.
    + exact (Hnull eq_refl).
  - refine (Hbefore (PStr "SN1") sample_fields (start empty_cloud) _ _
              [Read CurrentOperation; Update; Read Available]
              [EStatus true; EWarning "Unable to update entity %s" PNone]
              _ _ _).
    + reflexivity.
    + vm_compute. reflexivity.
    + reflexivity.
Defined.

(** C10 as stated fails: the entity is constructed off line, an update
    fetches settings that say on line and [available] is read; a second
    update then fetches settings that are [None].  The settings have been
    fetched, the last ones fetched have no ["online"] entry and the initial
    data say [False], and [available] returns [True], the flag stored by
    the earlier read. *)
Lemma available_stale_after_null :
  let new := fresh (PStr "Bobbie") (PStr "SN1") sample_device (PBool false) in
  let first := (async_update (new, start heating_cloud)).2.1 in
  let seen := (available first).2 in
  let second := async_update (seen, start null_cloud) in
  __init__ (PStr "SN1") sample_device (start heating_cloud)
  = (Ok new,
     after (start heating_cloud) heating_cloud
       [EDebug "Initial data: %s" sample_device]) /\
  sample_fields !! "online" = Some (PBool false) /\
  (available first).1 = Ok (PBool true) /\
  second.1 = Ok tt /\
  trace second.2.2
  = [EStatus true;
     EDebug "Status: %s" (sample_status (PBool true) (PBool true));
     ECurSettings (PStr "SN1"); EDebug "Current settings: %s" PNone] /\
  _cur_settings second.2.1 = PNone /\
  (available second.2.1).1 = Ok (PBool true).
Proof. vm_compute. repeat split. Qed.

(** *** Runs for the further properties *)

Lemma current_operation_missing_flag_witness :
  @current_operation plain_display
    (sample_entity (PDict {[ ATTR_HOT := PInt 48 ]}) PNone)
  = (Raise KeyError, sample_entity (PDict {[ ATTR_HOT := PInt 48 ]}) PNone) /\
  @current_operation plain_display
    (sample_entity (PDict {[ ATTR_RELAY := PBool true ]}) PNone)
  = (Raise KeyError,
     sample_entity (PDict {[ ATTR_RELAY := PBool true ]}) PNone).
Proof.
  split.
  - destruct (@current_operation_missing_flag plain_display
                (sample_entity (PDict {[ ATTR_HOT := PInt 48 ]}) PNone)
                _ eq_refl) as [Hrelay _].
    apply Hrelay. vm_compute. reflexivity.
  - destruct (@current_operation_missing_flag plain_display
                (sample_entity (PDict {[ ATTR_RELAY := PBool true ]}) PNone)
                _ eq_refl) as [_ Hload].
    apply (Hload (PBool true)); [vm_compute; reflexivity | discriminate
                                | vm_compute; reflexivity].
Defined.

Lemma current_operation_stale_witness :
  @current_operation plain_display
    (sample_entity (sample_status (PInt 1) (PInt 1)) PNone)
  = (Ok PNone, sample_entity (sample_status (PInt 1) (PInt 1)) PNone).
Proof.
  refine (@current_operation_stale plain_display
            (sample_entity (sample_status (PInt 1) (PInt 1)) PNone)
            _ (PInt 1) (PInt 1) eq_refl _ _ _ _ _);
    first [discriminate | vm_compute; reflexivity].
Defined.

Lemma extra_state_attributes_all_or_nothing_witness :
  (exists d attrs,
     _status_data
       (sample_entity (sample_status (PBool true) (PBool true)) PNone)
     = PDict d /\
     PDict sample_attributes = PDict attrs /\
     dom attrs = list_to_set attribute_keys /\
     Forall (fun key => is_Some (d !! key)) attribute_keys /\
     Forall (fun key => attrs !! key = d !! key)
       [ATTR_ENERGY; ATTR_VOLTAGE; ATTR_CURRENT; ATTR_RELAY; ATTR_LOAD]) /\
  ((_status_data (sample_entity PNone PNone) = PNone /\
    PDict ∅ = PDict ∅) \/
   exists d attrs,
     _status_data (sample_entity PNone PNone) = PDict d /\
     PDict ∅ = PDict attrs /\
     dom attrs = list_to_set attribute_keys /\
     Forall (fun key => is_Some (d !! key)) attribute_keys /\
     Forall (fun key => attrs !! key = d !! key)
       [ATTR_ENERGY; ATTR_VOLTAGE; ATTR_CURRENT; ATTR_RELAY; ATTR_LOAD]).
Proof.
  split.
  - destruct (@extra_state_attributes_all_or_nothing plain_display
                (sample_entity (sample_status (PBool true) (PBool true))
                   PNone)
                (PDict sample_attributes)
                (sample_entity (sample_status (PBool true) (PBool true))
                   PNone))
      as [_ [[Hnone _]|Hfull]].
    + vm_compute. reflexivity.
    + discriminate Hnone.
    + exact Hfull.
  - apply (@extra_state_attributes_all_or_nothing plain_display
             (sample_entity PNone PNone) (PDict ∅)
             (sample_entity PNone PNone)).
    reflexivity.
Defined.

Lemma extra_hot_is_current_temperature_witness :
  exists d hot hot',
    sample_status (PBool true) (PBool true) = PDict d /\
    d !! ATTR_HOT = Some hot /\
    (current_temperature
       (sample_entity (sample_status (PBool true) (PBool true)) PNone)).1
    = Ok hot /\
    @show_temp plain_display hot (@TEMP_CELSIUS plain_display) = Ok hot' /\
    sample_attributes !! ATTR_HOT = Some hot'.
Proof.
  apply (@extra_hot_is_current_temperature plain_display
           (sample_entity (sample_status (PBool true) (PBool true)) PNone)).
  - discriminate.
  - vm_compute. reflexivity.
Defined.

Lemma async_update_settings_call_fails_witness :
  async_update (sample_entity PNone PNone, start flaky_cloud)
  = (Raise (ApiError "connection failed"),
     (sample_entity (sample_status (PBool true) (PBool true)) PNone,
      after (start flaky_cloud) flaky_cloud
        [EStatus true;
         EDebug "Status: %s" (sample_status (PBool true) (PBool true));
         ECurSettings (PStr "SN1")])).
Proof.
  apply (async_update_settings_call_fails
           (sample_entity PNone PNone) (start flaky_cloud)
           (ApiError "connection failed")
           (PDict {[ "SN1" := sample_status (PBool true) (PBool true) ]})
           flaky_cloud (sample_status (PBool true) (PBool true))
           flaky_cloud);
    reflexivity.
Defined.

Lemma async_update_status_fails_witness :
  async_update (sample_entity PNone PNone, start unreachable_cloud)
  = (Raise (ApiError "connection failed"),
     (sample_entity PNone PNone,
      after (start unreachable_cloud) unreachable_cloud [EStatus true])) /\
  async_update (sample_entity PNone PNone, start silent_cloud)
  = (Raise TypeError,
     (sample_entity PNone PNone,
      after (start silent_cloud) silent_cloud [EStatus true])).
Proof.
  split.
  - destruct (async_update_status_fails (sample_entity PNone PNone)
                (start unreachable_cloud) (ApiError "connection failed")
                eq_refl) as [Hcall _].
    now apply Hcall.
  - destruct (async_update_status_fails (sample_entity PNone PNone)
                (start silent_cloud) TypeError eq_refl) as [_ Hindex].
    now apply (Hindex PNone).
Defined.

Lemma async_setup_platform_no_heater_witness :
  async_setup_platform (start cooling_cloud)
  = (Ok tt,
     after (start cooling_cloud) cooling_cloud
       [EFetchDevices; EAddEntities []]) /\
  async_setup_platform (start empty_cloud)
  = (Ok tt,
     after (start empty_cloud) empty_cloud [EFetchDevices; EAddEntities []]).
Proof.
  split.
  - apply (async_setup_platform_no_heater (start cooling_cloud)
             [("AC7", other_device)]); [reflexivity| |reflexivity].
    repeat constructor. eexists _, (PStr "melissa").
    split; [reflexivity|split; [vm_compute; reflexivity|]].
    vm_compute. discriminate.
  - apply (async_setup_platform_no_heater (start empty_cloud) []);
      [reflexivity|constructor|reflexivity].
Defined.

Lemma update_then_read_witness :
  let self' :=
    (async_update (sample_entity PNone PNone, start heating_cloud)).2.1 in
  (current_temperature self').1 = Ok (PInt 48) /\
  (available self').1 = Ok (PBool true).
Proof.
  refine (update_then_read (sample_entity PNone PNone) (start heating_cloud)
            (PDict {[ "SN1" := sample_status (PBool true) (PBool true) ]})
            heating_cloud sample_attributes
            (PDict {[ "controller" := PDict {[ "online" := PBool true ]} ]})
            heating_cloud
            {[ "online" := PBool true ]} eq_refl _ eq_refl _);
    vm_compute; reflexivity.
Defined.

Lemma current_temperature_raises_witness :
  exists e,
    (current_temperature (sample_entity (PStr "offline") PNone)).1 = Raise e.
Proof.
  destruct (current_temperature_raises
              (sample_entity (PStr "offline") PNone)) as (_ & [_ Hraises] & _).
  apply Hraises. split; [discriminate|]. intros d. discriminate.
Defined.

Lemma init_outcome_witness :
  let run := __init__ (PStr "SN1") sample_device (start heating_cloud) in
  (exists self, run.1 = Ok self) /\
  (__init__ (PStr "SN2") nameless_device (start heating_cloud)).2
  = start heating_cloud.
Proof.
  split.
  - destruct (init_outcome (PStr "SN1") sample_device (start heating_cloud))
      as (_ & [_ Hreturns] & _).
    apply Hreturns. exists sample_fields, (PStr "Bobbie").
    split; [reflexivity|vm_compute; reflexivity].
  - destruct (init_outcome (PStr "SN2") nameless_device (start heating_cloud))
      as (_ & _ & _ & Hraises).
    now apply (Hraises KeyError).
Defined.

Lemma async_setup_platform_returns_witness :
  (async_setup_platform (start heating_cloud)).1 = Ok tt /\
  async_setup_platform (start unreachable_cloud)
  = (Raise (ApiError "connection failed"),
     after (start unreachable_cloud) unreachable_cloud [EFetchDevices]).
Proof.
  split.
  - destruct (async_setup_platform_returns (start heating_cloud))
      as [[_ Hreturns] _].
    apply Hreturns.
    exists [("AC7", other_device); ("SN1", sample_device)], heating_cloud.
    split; [reflexivity|]. repeat constructor.
    + eexists _, (PStr "melissa").
      split; [reflexivity|split; [vm_compute; reflexivity|]].
      vm_compute. discriminate.
    + eexists _, (PStr "bobbie").
      split; [reflexivity|split; [vm_compute; reflexivity|]].
      intros _. split; eexists; vm_compute; reflexivity.
  - destruct (async_setup_platform_returns (start unreachable_cloud))
      as [_ Hfails].
    now apply Hfails.
Defined.
